(** * replbot: the session engine, embedded from the Go sources

    The repository holds several revisions of the same engine:
    - [src/unnamed/part_001]: the first prototype of the session
      ([inputLoop], [replSession], [close]);
    - [src/session.go]: the next revision of that file
      ([userInputLoop], [handleUserInput] on a pty);
    - [src/bot/repl.go]: the REPL runner with a [Sender]
      ([handleUserInput], [commandOutputForwarder]);
    - [src/util/screen.go]: the terminal driver on GNU screen;
    - [src/bot/bot.go]: the dispatcher (session configuration, message
      forwarding, the share server's callbacks).

    Each module below embeds one of these files.  Go strings are byte
    strings and are modelled as [string] (a list of 8-bit characters);
    raw bytes written to a terminal are [Byte.byte]; Go maps are [gmap];
    a Go [error] value is [option error] with [None] for [nil]. *)

From Stdlib Require Import Strings.String Strings.Ascii Strings.Byte List ZArith Lia.
From stdpp Require Import gmap strings list pretty.

Local Open Scope string_scope.

(** ** Values shared by all revisions *)

(** Go [error] values that the embedded code creates or passes on. *)
Inductive error : Type :=
| errExit                       (* errors.New("exited REPL session") *)
| ErrClosed                     (* os.ErrClosed: file already closed *)
| ErrInvalid                    (* os.ErrInvalid: nil *os.File *)
| errOther (what : string).     (* any error of the OS, the pty or the chat *)

(** A call either returns or panics (Go run-time panic). *)
Inductive outcome (A : Type) : Type :=
| Return (a : A)
| Panic (reason : string).
Arguments Return {A} a.
Arguments Panic {A} reason.

(** [controlCharTable] of session.go:23-28 (the same literal is in
    part_001:19-24). *)
Definition controlCharTable : gmap string byte :=
  {[ "r" := x10; "ret" := x10; "ctrl-c" := x03; "ctrl-d" := x04 ]}.

Definition helpCommand : string := "!help".
Definition exitCommand : string := "!exit".

Definition availableCommandsMessage : string :=
  "Available commands:" +:+ String "010" "" +:+
  "  `!ret`, `!r` - Send empty return" +:+ String "010" "" +:+
  "  `!ctrl-c`, `!ctrl-d`, ... - Send command sequence" +:+ String "010" "" +:+
  "  `!exit` - Exit this session".

Definition maxMessageLength : nat := 512.

(** [input[1:]]: Go panics when the lower bound 1 exceeds [len(input)]. *)
Definition slice_from_1 (input : string) : outcome string :=
  match input with
  | EmptyString => Panic "slice bounds out of range [1:0]"
  | String _ rest => Return rest
  end.

(** [fmt.Sprintf("%s\n", input)] *)
Definition sprintf_line (input : string) : string := input +:+ String "010" "".

(** *** [shellEscapeRegex.ReplaceAllString(s, "")]

    The pattern is [\x1B\[[0-9;]*[a-zA-Z]].  The parameter class and the
    final letter class are disjoint, so a match at a position is: ESC,
    '[', the longest run of parameter bytes, one letter. *)
Definition is_param (c : ascii) : bool :=
  let n := nat_of_ascii c in
  ((48 <=? n)%nat && (n <=? 57)%nat) || (n =? 59)%nat.

Definition is_letter (c : ascii) : bool :=
  let n := nat_of_ascii c in
  ((97 <=? n)%nat && (n <=? 122)%nat) || ((65 <=? n)%nat && (n <=? 90)%nat).

(** Length of [[0-9;]*[a-zA-Z]] matched at the start of [s], if any. *)
Fixpoint match_params (s : string) : option nat :=
  match s with
  | EmptyString => None
  | String c rest =>
      if is_param c then S <$> match_params rest
      else if is_letter c then Some 1
      else None
  end.

(** Length of a match of the whole pattern at the start of [s]. *)
Definition match_escape (s : string) : option nat :=
  match s with
  | String "027" (String "[" rest) => (λ n, 2 + n) <$> match_params rest
  | _ => None
  end.

(** Leftmost, non-overlapping matches are deleted; [skip] counts the
    bytes of the current match that are still to be dropped. *)
Fixpoint strip_from (skip : nat) (s : string) : string :=
  match s with
  | EmptyString => EmptyString
  | String c rest =>
      match skip with
      | S k => strip_from k rest
      | O =>
          match match_escape s with
          | Some n => strip_from (pred n) rest
          | None => String c (strip_from 0 rest)
          end
      end
  end.

Definition strip_escapes (s : string) : string := strip_from 0 s.

(** ** src/bot/repl.go: the REPL runner *)
Module Repl.

Inductive Format : Type := Text | Markdown | Code.

(** What the runner did to the outside: every [Sender.Send] call with
    its result, every [Write] on the pty master with its result. *)
Record World : Type := mkWorld {
  sent : list (string * Format * option error);
  written : list (list byte * option error)
}.

(** The outside decides whether the n-th send and the n-th write fail. *)
Record Env : Type := mkEnv {
  sendResult : nat → option error;
  writeResult : nat → option error
}.

Definition M (A : Type) : Type := World → outcome A * World.

#[global] Instance M_ret : MRet M := λ A a w, (Return a, w).
#[global] Instance M_bind : MBind M := λ A B f m w,
  match m w with
  | (Return a, w') => f a w'
  | (Panic r, w') => (Panic r, w')
  end.

Definition lift_outcome {A} (o : outcome A) : M A := λ w, (o, w).

(** Modelled from the spec: [commentPrefix] is declared in a file of the
    bot package that is not part of the sources at hand; the spec says
    lines beginning with [#] are ignored. *)
Definition commentPrefix : string := "#".

Section WithEnv.
Context (env : Env).

(** [r.sender.Send(message, format)] *)
Definition Send (message : string) (format : Format) : M (option error) :=
  λ w, let r := sendResult env (length (sent w)) in
       (Return r, mkWorld (sent w ++ [(message, format, r)]) (written w)).

(** [outputWriter.Write(p)] and [io.WriteString(outputWriter, s)]; only
    the error result is used by the callers. *)
Definition Write (p : list byte) : M (option error) :=
  λ w, let r := writeResult env (length (written w)) in
       (Return r, mkWorld (sent w) (written w ++ [(p, r)])).

(** repl.go:85-102 *)
Definition handleUserInput (input : string) : M (option error) :=
  if String.eqb input helpCommand then Send availableCommandsMessage Markdown
  else if String.eqb input exitCommand then mret (Some errExit)
  else if String.prefix commentPrefix input then mret None
  else
    rest ← lift_outcome (slice_from_1 input);
    match controlCharTable !! rest with
    | Some controlChar => Write [controlChar]
    | None => Write (list_byte_of_string (sprintf_line input))
    end.

(** What a [select] in a loop can receive. *)
Inductive input_event : Type :=
| Line (line : string)          (* case line := <-r.userInputChan *)
| InputDone.                    (* case <-r.ctx.Done() *)

(** A task is still in its loop, or has returned its [error]. *)
Inductive status : Type :=
| Running
| Returned (err : option error).

(** repl.go:71-84, driven by the events its [select] receives. *)
Fixpoint userInputLoop (events : list input_event) : M status :=
  match events with
  | [] => mret Running
  | Line line :: events' =>
      err ← handleUserInput line;
      match err with
      | Some e => mret (Returned (Some e))
      | None => userInputLoop events'
      end
  | InputDone :: _ => mret (Returned (Some errExit))
  end.

Inductive output_event : Type :=
| OutChan (result : string)     (* case result := <-r.outChan *)
| TimeAfter                     (* case <-time.After(300 * time.Millisecond) *)
| CtxDone.                      (* case <-r.ctx.Done() *)

(** One iteration of the loop of repl.go:146-171: the new [message], or
    the value the function returns. *)
Definition forwarderStep (message : string) (ev : output_event)
  : M (string + option error) :=
  match ev with
  | OutChan result =>
      let message := message +:+ strip_escapes result in
      if (maxMessageLength <? String.length message)%nat then
        err ← Send message Code;
        match err with
        | Some e => mret (inr (Some e))
        | None => mret (inl "")
        end
      else mret (inl message)
  | TimeAfter =>
      if (0 <? String.length message)%nat then
        err ← Send message Code;
        match err with
        | Some e => mret (inr (Some e))
        | None => mret (inl "")
        end
      else mret (inl message)
  | CtxDone =>
      if (0 <? String.length message)%nat then
        err ← Send message Code;
        match err with
        | Some e => mret (inr (Some e))
        | None => mret (inr (Some errExit))
        end
      else mret (inr (Some errExit))
  end.

Fixpoint forwarderLoop (events : list output_event) (message : string) : M status :=
  match events with
  | [] => mret Running
  | ev :: events' =>
      next ← forwarderStep message ev;
      match next with
      | inl message' => forwarderLoop events' message'
      | inr err => mret (Returned err)
      end
  end.

(** repl.go:142-172: [var message string] starts empty. *)
Definition commandOutputForwarder (events : list output_event) : M status :=
  forwarderLoop events "".

End WithEnv.

(** The text an iteration of the forwarder hands to [Send], if it
    sends: repl.go:149-151, 157-158 and 164-165. *)
Definition posted (message : string) (ev : output_event) : option string :=
  match ev with
  | OutChan result =>
      let message := message +:+ strip_escapes result in
      if (maxMessageLength <? String.length message)%nat then Some message else None
  | TimeAfter | CtxDone =>
      if (0 <? String.length message)%nat then Some message else None
  end.

(** [message] after the chunks of a burst have been appended
    (repl.go:149). *)
Definition accumulate (message : string) (chunks : list string) : string :=
  foldl (λ m result, m +:+ strip_escapes result) message chunks.

(** The times, in milliseconds, at which the forwarder calls [Send] on
    a schedule that gives with each event the time its [select] waited
    for it. *)
Fixpoint postTimes (env : Env) (now : nat) (events : list (nat * output_event))
    (message : string) (w : World) : list nat :=
  match events with
  | [] => []
  | (waited, ev) :: events' =>
      let now := (now + waited)%nat in
      let '(next, w') := forwarderStep env message ev w in
      let here := if (length (sent w) <? length (sent w'))%nat then [now] else [] in
      match next with
      | Return (inl message') => (here ++ postTimes env now events' message' w')%list
      | _ => here
      end
  end.

(** The timer of repl.go:156 fires after 300 ms of waiting, and no
    other case is taken later than that. *)
Definition timely (events : list (nat * output_event)) : bool :=
  forallb (λ e, match e.2 with
                | TimeAfter => (300 <=? e.1)%nat
                | _ => (e.1 <=? 300)%nat
                end) events.

Definition emptyWorld : World := mkWorld [] [].
Definition reliable : Env := mkEnv (λ _, None) (λ _, None).

(** A chat whose first send fails and whose later sends succeed. *)
Definition failingOnce : Env :=
  mkEnv (λ n, if (n =? 0)%nat then Some (errOther "chat send failed") else None)
        (λ _, None).

(** A full read buffer of repl.go:108: 512 bytes of output. *)
Definition fullBuffer : string := string_of_list_ascii (repeat "a"%char 512).

(** A burst: four full buffers, one millisecond apart. *)
Definition burst : list (nat * output_event) :=
  [(1, OutChan fullBuffer); (1, OutChan fullBuffer);
   (1, OutChan fullBuffer); (1, OutChan fullBuffer)].

End Repl.

(** ** src/util/screen.go: the terminal driver *)
Module Screen.

(** An [*os.File]: the object behind the pointer is open or closed. *)
Inductive file : Type :=
| OpenFile (name : string)
| ClosedFile (name : string).

(** [type Screen struct { id string; log *os.File }] *)
Record Screen : Type := mkScreen {
  id : string;
  log : option file
}.

(** The part of the operating system the driver touches: the files by
    path, and the live screen sessions by name with the text on their
    window. *)
Record OS : Type := mkOS {
  files : gmap string string;
  screens : gmap string string
}.

(** Failures the outside can inject: writing or opening a path, and
    running the [screen] binary with given arguments.  An environment
    answers a command by its arguments alone, so within one environment
    a command that failed once fails again; what is to hold whatever
    [screen] answers at a later time is stated over a second
    environment. *)
Record Env : Type := mkEnv {
  writeFileErr : string → option error;
  openErr : string → option error;
  runErr : list string → option error
}.

(** [NewScreen]: [token] is the value of [RandomID(10)]. *)
Definition NewScreen (token : string) : Screen :=
  mkScreen ("replbot." +:+ token) None.

Definition logFile (s : Screen) : string := "/tmp/" +:+ id s +:+ ".screenlog".
Definition rcFile (s : Screen) : string := "/tmp/" +:+ id s +:+ ".screenrc".
Definition regFile (s : Screen) : string := "/dev/shm/" +:+ id s +:+ ".reg".
Definition hardcopyFile (s : Screen) : string := "/dev/shm/" +:+ id s +:+ ".hardcopy".

Definition rcBytes (s : Screen) : string :=
  "deflog on" +:+ String "010" "" +:+
  "logfile " +:+ logFile s +:+ String "010" "" +:+
  "logfile flush 0" +:+ String "010" "" +:+
  "log on" +:+ String "010" "".

Section WithEnv.
Context (env : Env).

(** [os.WriteFile(path, data, 0600)] *)
Definition WriteFile (path data : string) (os : OS) : option error * OS :=
  match writeFileErr env path with
  | Some e => (Some e, os)
  | None => (None, mkOS (<[path := data]> (files os)) (screens os))
  end.

(** [os.Open(path)] *)
Definition Open (path : string) (os : OS) : option file * option error :=
  match openErr env path with
  | Some e => (None, Some e)
  | None =>
      match files os !! path with
      | Some _ => (Some (OpenFile path), None)
      | None => (None, Some (errOther "no such file or directory"))
      end
  end.

(** [os.Remove(path)]; the driver ignores its result.  The files are the
    driver's own, in /tmp and /dev/shm, so removal of an existing one
    goes through. *)
Definition Remove (path : string) (os : OS) : OS :=
  mkOS (delete path (files os)) (screens os).

(** [Close] of [os.File]: a nil receiver gives [ErrInvalid], a second
    close gives [ErrClosed]. *)
Definition Close (f : option file) : option error * option file :=
  match f with
  | None => (Some ErrInvalid, None)
  | Some (OpenFile name) => (None, Some (ClosedFile name))
  | Some (ClosedFile name) => (Some ErrClosed, Some (ClosedFile name))
  end.

(** [screen -S id ...] addressed to a session: fails when there is no
    such session. *)
Definition runOn (s : Screen) (args : list string) (os : OS) : option error :=
  match screens os !! id s with
  | None => Some (errOther "No screen session found.")
  | Some _ => runErr env (["-S"; id s] ++ args)%list
  end.

(** screen.go:20-39 *)
Definition Start (args : list string) (s : Screen) (os : OS)
  : option error * Screen * OS :=
  match WriteFile (logFile s) "" os with
  | (Some err, os) => (Some err, s, os)
  | (None, os) =>
      match Open (logFile s) os with
      | (f, Some err) => (Some err, mkScreen (id s) f, os)
      | (f, None) =>
          let s := mkScreen (id s) f in
          match WriteFile (rcFile s) (rcBytes s) os with
          | (Some err, os) => (Some err, s, os)
          | (None, os) =>
              let args := (["-dmS"; id s; "-c"; rcFile s] ++ args)%list in
              match runErr env args with
              | Some err => (Some err, s, os)
              | None => (None, s, mkOS (files os) (<[id s := ""]> (screens os)))
              end
          end
      end
  end.

(** screen.go:41-45 *)
Definition Active (s : Screen) (os : OS) : bool :=
  match runOn s ["-Q"; "select"; "."] os with
  | None => true
  | Some _ => false
  end.

(** screen.go:47-60 *)
Definition Paste (input : string) (s : Screen) (os : OS) : option error * OS :=
  match WriteFile (regFile s) input os with
  | (Some err, os) => (Some err, os)
  | (None, os) =>
      match runOn s ["-X"; "readreg"; "x"; regFile s] os with
      | Some err => (Some err, os)
      | None =>
          match runOn s ["-X"; "paste"; "x"] os with
          | Some err => (Some err, os)
          | None => (None, os)
          end
      end
  end.

(** screen.go:67-77: on success screen writes its window to the
    hardcopy file, which is then read back. *)
Definition Hardcopy (s : Screen) (os : OS) : string * option error * OS :=
  match runOn s ["-X"; "hardcopy"; hardcopyFile s] os with
  | Some err => ("", Some err, os)
  | None =>
      let text := default "" (screens os !! id s) in
      let os := mkOS (<[hardcopyFile s := text]> (files os)) (screens os) in
      match openErr env (hardcopyFile s) with
      | Some err => ("", Some err, os)
      | None => (text, None, os)
      end
  end.

(** The deferred function of [Stop], screen.go:80-85. *)
Definition removeFiles (s : Screen) (os : OS) : OS :=
  Remove (hardcopyFile s) (Remove (regFile s) (Remove (logFile s) (Remove (rcFile s) os))).

(** screen.go:79-93.  A successful [quit] ends the session. *)
Definition Stop (s : Screen) (os : OS) : option error * Screen * OS :=
  let '(ret, s, os) :=
    if Active s os then
      match runOn s ["-X"; "quit"] os with
      | Some err => (Some err, s, os)
      | None =>
          let os := mkOS (files os) (delete (id s) (screens os)) in
          let '(err, f) := Close (log s) in
          (err, mkScreen (id s) f, os)
      end
    else
      let '(err, f) := Close (log s) in
      (err, mkScreen (id s) f, os)
  in
  (ret, s, removeFiles s os).

End WithEnv.

(** screen.go:62-65 *)
Definition Stuff (env : Env) (stuff : string) (s : Screen) (os : OS) : option error :=
  runOn env s ["-X"; "stuff"; stuff] os.

Definition emptyOS : OS := mkOS ∅ ∅.
Definition reliable : Env := mkEnv (λ _, None) (λ _, None) (λ _, None).

(** A handle, and the handle and the system after a successful [Start],
    a [Paste] and a [Hardcopy]. *)
Definition exampleScreen : Screen := NewScreen "a1b2c3d4e5".
Definition started : Screen * OS :=
  let '(_, s, os) := Start reliable ["bash"] exampleScreen emptyOS in
  let '(_, os) := Paste reliable "ls" s os in
  let '(_, _, os) := Hardcopy reliable s os in
  (s, os).

End Screen.

(** ** src/bot/bot.go: the dispatcher *)
Module Bot.

(** Modelled from the spec: the mode constants of the [config] package,
    which is not part of the sources at hand.  The mode types are
    strings ([bot.go] converts the tokens of a message to them) and the
    spec gives the tokens. *)
Definition Thread : string := "thread".
Definition Channel : string := "channel".
Definition Split : string := "split".
Definition Full : string := "full".
Definition Trim : string := "trim".
Definition OnlyMe : string := "only-me".
Definition Everyone : string := "everyone".

(** Modelled from the spec: [config.Size] and the four sizes, rows by
    columns: tiny 15 by 60, small 20 by 80, medium 30 by 100, large 40 by
    120; [bot.go] reads the [Name] of a size. *)
Record Size : Type := mkSize { Name : string; Width : Z; Height : Z }.
Definition Tiny : Size := mkSize "tiny" 60 15.
Definition Small : Size := mkSize "small" 80 20.
Definition Medium : Size := mkSize "medium" 100 30.
Definition Large : Size := mkSize "large" 120 40.

(** Modelled from the spec: [config.Sizes], the sizes by name. *)
Definition Sizes : gmap string Size :=
  {[ "tiny" := Tiny; "small" := Small; "medium" := Medium; "large" := Large ]}.

(** Modelled from the spec: the chat platforms; [bot.go] tells Slack,
    Discord and anything else apart. *)
Inductive Platform : Type := Slack | Discord | OtherPlatform.

(** Modelled from the spec: the fields and getters of [config.Config]
    that [bot.go] reads. *)
Record Config : Type := mkConfig {
  platform : Platform;
  DefaultControlMode : string;
  DefaultWindowMode : string;
  DefaultAuthMode : string;
  DefaultSize : option Size;
  scripts : gmap string string;
  ShareEnabled : bool
}.

(** [b.config.Script(name)], as [bot.go:195] uses it: the script's path,
    or the empty string for a name that is no script. *)
Definition Script (c : Config) (name : string) : string :=
  default "" (scripts c !! name).

Inductive channelType : Type :=
| channelTypeUnknown | channelTypeChannel | channelTypeDM.

Record messageEvent : Type := mkMessageEvent {
  ID : string;
  EvChannel : string;
  ChannelType : channelType;
  EvThread : string;
  User : string;
  Message : string
}.

Record chatID : Type := mkChatID { ChatChannel : string; ChatThread : string }.

(** [sessionConfig], as [parseSessionConfig] and
    [applySessionConfigDefaults] fill it; a nil [*config.Size] is [None]. *)
Record sessionConfig : Type := mkSessionConfig {
  ConfID : string;
  ConfUser : string;
  Control : option chatID;
  Terminal : option chatID;
  ConfScript : string;
  ControlMode : string;
  WindowMode : string;
  AuthMode : string;
  ConfSize : option Size;
  RelayPort : Z
}.

Definition shareCommand : string := "share".
Definition shareServerScriptFile : string := "/tmp/replbot_share_server.sh".

(** Errors of [parseSessionConfig]. *)
Inductive parseError : Type :=
| errNoScript
| errUnknownCommand (field : string)
| errRandomPort (e : error).

(** An accepted ssh connection ([*gossh.ServerConn]), by identity. *)
Definition conn : Type := nat.

(** Modelled from the spec: the session type is declared in
    bot/session.go, which is not part of the sources at hand.  The spec
    gives a session its configuration (owner and auth mode included), an
    optional relay port, a chat-input channel and, for a share session,
    the recorded ssh connection; [active] is what [Active()] reports. *)
Record session : Type := mkSession {
  conf : sessionConfig;
  relayPort : Z;
  active : bool;
  userInputChan : list string;
  shareConn : option conn
}.

(** Modelled from the spec: [UserInput] of bot/session.go is not part of
    the sources at hand.  Rule 1 of the input router: if the auth mode is
    only-me, a line whose author is not the session owner is dropped
    silently; otherwise the line is delivered to the chat-input channel,
    from which the input pump runs the router of repl.go. *)
Definition UserInput (user message : string) (sess : session) : session :=
  if String.eqb (AuthMode (conf sess)) OnlyMe && negb (String.eqb user (ConfUser (conf sess)))
  then sess
  else mkSession (conf sess) (relayPort sess) (active sess)
                 (userInputChan sess ++ [message]) (shareConn sess).

(** [Bot]: the registry, and the ssh connections the bot has closed. *)
Record Bot : Type := mkBot {
  config : Config;
  sessions : gmap string session;
  closedConns : list conn
}.

(** [ssh.Context]: the authenticated user and the value stored under
    [ContextKeyConn], if it is a server connection. *)
Record sshContext : Type := mkSshContext {
  ctxUser : string;
  ctxConn : option conn
}.

(** [strings.Fields]: the white space runes of [unicode.IsSpace] in
    UTF-8; [space_len s] is the length in bytes of one at the start of
    [s], or 0. *)
Definition space_len (s : string) : nat :=
  match s with
  | String c rest =>
      let n := nat_of_ascii c in
      if ((9 <=? n)%nat && (n <=? 13)%nat) || (n =? 32)%nat then 1
      else match rest with
      | String c1 rest1 =>
          let n1 := nat_of_ascii c1 in
          if (n =? 194)%nat && ((n1 =? 133)%nat || (n1 =? 160)%nat) then 2
          else match rest1 with
          | String c2 _ =>
              let n2 := nat_of_ascii c2 in
              if (n =? 225)%nat && (n1 =? 154)%nat && (n2 =? 128)%nat then 3
              else if (n =? 226)%nat && (n1 =? 128)%nat &&
                      (((128 <=? n2)%nat && (n2 <=? 138)%nat) ||
                       (n2 =? 168)%nat || (n2 =? 169)%nat || (n2 =? 175)%nat) then 3
              else if (n =? 226)%nat && (n1 =? 129)%nat && (n2 =? 159)%nat then 3
              else if (n =? 227)%nat && (n1 =? 128)%nat && (n2 =? 128)%nat then 3
              else 0
          | EmptyString => 0
          end
      | EmptyString => 0
      end
  | EmptyString => 0
  end.

(** [cur] is the field being read, reversed; [skip] the bytes of the
    current white space rune still to be dropped. *)
Fixpoint fields_from (skip : nat) (cur : list ascii) (s : string) : list string :=
  let flush := match cur with [] => [] | _ => [string_of_list_ascii (rev cur)] end in
  match s with
  | EmptyString => flush
  | String c rest =>
      match skip with
      | S k => fields_from k [] rest
      | O =>
          match space_len s with
          | O => fields_from 0 (c :: cur) rest
          | S k => (flush ++ fields_from k [] rest)%list
          end
      end
  end.

Definition Fields (s : string) : list string := fields_from 0 [] s.

Section WithOutside.
(** [util.SanitizeNonAlphanumeric], [b.conn.MentionBot()],
    [util.RandomPort()] (by the position of the field that asks for it)
    and [RegisterShareConn] of bot/session.go are not part of the
    sources at hand; the dispatcher is embedded over any of them. *)
Context (SanitizeNonAlphanumeric : string → string).
Context (MentionBot : string).
Context (RandomPort : nat → Z + error).
Context (RegisterShareConn : conn → session → bool * session).

(** bot.go:208-237 *)
Definition applySessionConfigDefaults (b : Bot) (ev : messageEvent) (conf : sessionConfig)
  : sessionConfig :=
  let controlMode :=
    if String.eqb (ControlMode conf) "" then
      if negb (String.eqb (EvThread ev) "") then Thread
      else DefaultControlMode (config b)
    else ControlMode conf in
  let controlMode :=
    match platform (config b), ChannelType ev with
    | Discord, channelTypeDM =>
        if negb (String.eqb controlMode Channel) then Channel else controlMode
    | _, _ => controlMode
    end in
  let windowMode :=
    if String.eqb (WindowMode conf) "" then
      if String.eqb controlMode Thread then Trim
      else DefaultWindowMode (config b)
    else WindowMode conf in
  let authMode :=
    if String.eqb (AuthMode conf) "" then DefaultAuthMode (config b)
    else AuthMode conf in
  let size :=
    match ConfSize conf with
    | None =>
        if String.eqb controlMode Thread then Some Tiny
        else DefaultSize (config b)
    | Some sz => Some sz
    end in
  mkSessionConfig (ConfID conf) (ConfUser conf) (Control conf) (Terminal conf)
                  (ConfScript conf) controlMode windowMode authMode size (RelayPort conf).

Definition is_control_mode (f : string) : bool :=
  String.eqb f Thread || String.eqb f Channel || String.eqb f Split.
Definition is_window_mode (f : string) : bool :=
  String.eqb f Full || String.eqb f Trim.
Definition is_auth_mode (f : string) : bool :=
  String.eqb f OnlyMe || String.eqb f Everyone.
Definition is_size (f : string) : bool :=
  String.eqb f (Name Tiny) || String.eqb f (Name Small) ||
  String.eqb f (Name Medium) || String.eqb f (Name Large).

(** The body of the loop of bot.go:172-201 for the field at position
    [i]. *)
Definition parseField (b : Bot) (i : nat) (field : string) (conf : sessionConfig)
  : sessionConfig + parseError :=
  let set_mode cm wm am sz :=
    mkSessionConfig (ConfID conf) (ConfUser conf) (Control conf) (Terminal conf)
                    (ConfScript conf) cm wm am sz (RelayPort conf) in
  if String.eqb field MentionBot then inl conf
  else if is_control_mode field then
    inl (set_mode field (WindowMode conf) (AuthMode conf) (ConfSize conf))
  else if is_window_mode field then
    inl (set_mode (ControlMode conf) field (AuthMode conf) (ConfSize conf))
  else if is_auth_mode field then
    inl (set_mode (ControlMode conf) (WindowMode conf) field (ConfSize conf))
  else if is_size field then
    inl (set_mode (ControlMode conf) (WindowMode conf) (AuthMode conf) (Sizes !! field))
  else if ShareEnabled (config b) && String.eqb field shareCommand then
    match RandomPort i with
    | inr e => inr (errRandomPort e)
    | inl port =>
        inl (mkSessionConfig (ConfID conf) (ConfUser conf) (Control conf) (Terminal conf)
               shareServerScriptFile (ControlMode conf) (WindowMode conf)
               (if String.eqb (AuthMode conf) "" then OnlyMe else AuthMode conf)
               (ConfSize conf) port)
    end
  else if String.eqb (ConfScript conf) "" && negb (String.eqb (Script (config b) field) "") then
    inl (mkSessionConfig (ConfID conf) (ConfUser conf) (Control conf) (Terminal conf)
           (Script (config b) field) (ControlMode conf) (WindowMode conf) (AuthMode conf)
           (ConfSize conf) (RelayPort conf))
  else inr (errUnknownCommand field).

Fixpoint parseFields (b : Bot) (i : nat) (fields : list string) (conf : sessionConfig)
  : sessionConfig + parseError :=
  match fields with
  | [] => inl conf
  | field :: fields' =>
      match parseField b i field conf with
      | inl conf' => parseFields b (S i) fields' conf'
      | inr e => inr e
      end
  end.

(** bot.go:167-206 *)
Definition parseSessionConfig (b : Bot) (ev : messageEvent) : sessionConfig + parseError :=
  let conf := mkSessionConfig "" (User ev) None None "" "" "" "" None 0 in
  match parseFields b 0 (Fields (Message ev)) conf with
  | inr e => inr e
  | inl conf =>
      if String.eqb (ConfScript conf) "" then inr errNoScript
      else inl (applySessionConfigDefaults b ev conf)
  end.

(** The session id of a message, bot.go:159. *)
Definition sessionIDOf (ev : messageEvent) : string :=
  SanitizeNonAlphanumeric (EvChannel ev +:+ "_" +:+ EvThread ev).

(** bot.go:156-165 *)
Definition maybeForwardMessage (ev : messageEvent) (b : Bot) : bool * Bot :=
  match sessions b !! sessionIDOf ev with
  | Some sess =>
      if active sess then
        (true, mkBot (config b)
                     (<[sessionIDOf ev := UserInput (User ev) (Message ev) sess]> (sessions b))
                     (closedConns b))
      else (false, b)
  | None => (false, b)
  end.

(** bot.go:361-383; [port] is a [uint32].  The deferred function closes
    the connection of every request that is not allowed. *)
Definition sshReversePortForwardingCallback
    (ctx : sshContext) (host : string) (port : Z) (b : Bot) : bool * Bot :=
  match ctxConn ctx with
  | None => (false, b)
  | Some c =>
      let '(allow, b) :=
        if (port <? 1024)%Z ||
           (negb (String.eqb host "localhost") && negb (String.eqb host "127.0.0.1"))
        then (false, b)
        else
          match sessions b !! ctxUser ctx with
          | None => (false, b)
          | Some sess =>
              if negb (port =? relayPort sess)%Z then (false, b)
              else
                let '(ok, sess') := RegisterShareConn c sess in
                (ok, mkBot (config b) (<[ctxUser ctx := sess']> (sessions b)) (closedConns b))
          end
      in
      if allow then (true, b)
      else (false, mkBot (config b) (sessions b) (closedConns b ++ [c]))
  end.

(** bot.go:385-387 *)
Definition sshPtyCallback : bool := false.

End WithOutside.

(** The input pump of a session: the router of repl.go run over the
    lines that wait on the chat-input channel, and what it writes to the
    terminal. *)
Definition pumpWrites (env : Repl.Env) (sess : session) : list (list byte * option error) :=
  Repl.written (Repl.userInputLoop env (Repl.Line <$> userInputChan sess) Repl.emptyWorld).2.

(** A registry with one session in channel C1, owned by U1. *)
Definition exampleConfig : Config :=
  mkConfig Slack Channel Full Everyone (Some Small) {[ "bash" := "/etc/replbot/bash" ]} true.
Definition exampleSession (auth : string) (port : Z) : session :=
  mkSession (mkSessionConfig "C1_" "U1" None None "/etc/replbot/bash"
                             Channel Full auth (Some Small) port)
            port true [] None.
Definition exampleBot (auth : string) (port : Z) : Bot :=
  mkBot exampleConfig {[ "C1_" := exampleSession auth port ]} [].
Definition exampleEvent (user message : string) : messageEvent :=
  mkMessageEvent "1" "C1" channelTypeChannel "" user message.

(** What the loop of [parseSessionConfig] leaves for the message
    [@replbot bash thread]. *)
Definition exampleParsed : sessionConfig :=
  mkSessionConfig "" "U1" None None "/etc/replbot/bash" Thread "" "" None 0.

(** Modelled from the spec: [RegisterShareConn] of bot/session.go is
    not part of the sources at hand.  The spec grants one reverse
    forward per session and has the session record the connection on
    acceptance: the first connection of a session is recorded, a second
    one is refused. *)
Definition acceptOnce (c : conn) (sess : session) : bool * session :=
  match shareConn sess with
  | Some _ => (false, sess)
  | None => (true, mkSession (conf sess) (relayPort sess) (active sess)
                             (userInputChan sess) (Some c))
  end.

End Bot.

(** ** What part_001 and session.go have in common

    Both revisions of the session post to Slack through [send] and keep
    the [closed] flag under the session's mutex. *)
Module SessionBase.

Definition byeMessage : string := "REPLbot says bye bye!".

(** [fmt.Sprintf(welcomeMessage, repls)] and
    [fmt.Sprintf(sessionExitedMessage, repls)] *)
Definition welcomeMessage (repls : string) : string :=
  "REPLbot welcomes you!" +:+ String "010" (String "010" "") +:+
  "You may start a new session by choosing any one of the " +:+
  "available REPLs: " +:+ repls +:+
  ". Type `!help` for help and `!exit` to exit this session.".

Definition sessionExitedMessage (repls : string) : string :=
  "REPL session ended." +:+ String "010" (String "010" "") +:+
  "You may start a new session by choosing any one of the " +:+
  "available REPLs: " +:+ repls +:+
  ". Type `!help` for help and `!exit` to exit this session.".

(** [replList]: Go leaves the order of a map iteration open, the order
    of [map_to_list] stands for one of them. *)
Definition replList (repls : gmap string string) : list string :=
  (λ kv : string * string, "`" +:+ kv.1 +:+ "`") <$> map_to_list repls.

(** [strings.ReplaceAll(message, "```", "` ` `")]: [skip] counts the
    bytes of the current occurrence still to be dropped. *)
Fixpoint replaceTicks (skip : nat) (s : string) : string :=
  match s with
  | EmptyString => EmptyString
  | String c rest =>
      match skip with
      | S k => replaceTicks k rest
      | O =>
          if String.prefix "```" s then "` ` `" +:+ replaceTicks 2 rest
          else String c (replaceTicks 0 rest)
      end
  end.

(** What the session does that others can see, in order.  A post is a
    call of [s.rtm.PostMessage], whether Slack accepts it or not. *)
Inductive action : Type :=
| PostText (message : string)       (* send(slack.MsgOptionText(message, false)) *)
| PostBlocks (markdown : string)    (* send(slack.MsgOptionBlocks(sectionBlock)) *)
| SetClosed                         (* s.closed = true *)
| PtyWrite (p : list byte).         (* a write on ptmx *)

(** The session: the [closed] flag, what it has done so far, and where
    its goroutines are (a type of the revision). *)
Record Session (place : Type) : Type := mkSession {
  closed : bool;
  actions : list action;
  at_ : place
}.
Arguments mkSession {place} closed actions at_.
Arguments closed {place} s.
Arguments actions {place} s.
Arguments at_ {place} s.

Section Sending.
Context {place : Type}.

Definition act (a : action) (s : Session place) : Session place :=
  mkSession (closed s) (actions s ++ [a]) (at_ s).

Definition goto (p : place) (s : Session place) : Session place :=
  mkSession (closed s) (actions s) p.

(** [sendText], [sendCode], [sendMarkdown] *)
Definition sendText (message : string) : Session place → Session place :=
  act (PostText message).
Definition sendMarkdown (markdown : string) : Session place → Session place :=
  act (PostBlocks markdown).
Definition sendCode (message : string) : Session place → Session place :=
  sendMarkdown ("```" +:+ replaceTicks 0 message +:+ "```").

(** [close] *)
Definition close (message : string) (s : Session place) : Session place :=
  if closed s then s
  else
    let s := sendText message s in
    mkSession true (actions s ++ [SetClosed]) (at_ s).

Definition sayHello (repls : gmap string string) : Session place → Session place :=
  sendMarkdown (welcomeMessage (String.concat ", " (replList repls))).
Definition sayExited (repls : gmap string string) : Session place → Session place :=
  sendMarkdown (sessionExitedMessage (String.concat ", " (replList repls))).

End Sending.

Definition is_post (a : action) : bool :=
  match a with
  | PostText _ | PostBlocks _ => true
  | _ => false
  end.

(** No post follows [s.closed = true]; [seenClosed] tells whether the
    flag was set before the list starts. *)
Fixpoint quietAfterClosed (seenClosed : bool) (l : list action) : bool :=
  match l with
  | [] => true
  | SetClosed :: l' => quietAfterClosed true l'
  | a :: l' => (negb (is_post a) || negb seenClosed) && quietAfterClosed seenClosed l'
  end.

(** The session has not been closed yet. *)
Definition StillOpen {place : Type} (s : Session place) : Prop :=
  closed s = false ∧ SetClosed ∉ actions s.

(** [err.Error()] *)
Definition Error (e : error) : string :=
  match e with
  | errExit => "exited REPL session"
  | ErrClosed => "file already closed"
  | ErrInvalid => "invalid argument"
  | errOther what => what
  end.

Inductive readErr : Type := NoErr | EOF | OtherErr (e : error).

End SessionBase.

(** ** src/unnamed/part_001: the first prototype of the session *)
Module Prototype.
Import SessionBase.

Definition availableREPLs : gmap string string :=
  {[ "bash" := "docker run -it ubuntu";
     "python" := "docker run -it python";
     "nodejs" := "docker run -it node" ]}.

(** The variables of one [replSession] call shared with its output
    goroutine (part_001:146-180). *)
Record repl : Type := mkRepl {
  message : string;
  outputRunning : bool;
  cancelled : bool
}.

(** Where the goroutine of [inputLoop] is. *)
Inductive place : Type :=
| AtInputLoop                   (* part_001:79, receiving from s.inputChan *)
| InReplSession (r : repl)      (* part_001:183, receiving from s.inputChan *)
| Finished.                     (* inputLoop has returned *)

(** What the goroutines receive; the list of events given to [run] is
    one schedule. *)
Inductive event : Type :=
| Input (line : string)                     (* a line received from s.inputChan *)
| ReadResult (bytes : string) (err : readErr)   (* case result := <-readChan *)
| Tick.                                     (* case <-time.After(300 * time.Millisecond) *)

(** Failures the outside can inject, by the number of actions so far:
    [pty.Start] and [io.WriteString(ptmx, ...)]. *)
Record Env : Type := mkEnv {
  ptyStartErr : nat → option error;
  writeErr : nat → option error
}.

Section WithEnv.
Context (env : Env).

(** The loop of [inputLoop], part_001:79-94, for one received line; a
    known command enters [replSession] up to its input loop
    (part_001:115-183). *)
Definition inputLoopStep (input : string) (s : Session place) : Session place :=
  if String.eqb input "!exit" then goto Finished (close byeMessage s)
  else if String.eqb input "!help" then sendMarkdown availableCommandsMessage s
  else
    match availableREPLs !! input with
    | None => sendMarkdown "Invalid command" s
    | Some command =>
        match ptyStartErr env (length (actions s)) with
        | Some _ => sayExited availableREPLs s
        | None =>
            goto (InReplSession (mkRepl "" true false))
                 (sendMarkdown "Started a new REPL session" s)
        end
    end.

(** [replSession] returns: its deferred function cancels the context,
    which ends the output goroutine; then [inputLoop] says the REPL has
    exited (part_001:92-93). *)
Definition leaveRepl (s : Session place) : Session place :=
  goto AtInputLoop (sayExited availableREPLs s).

(** The input loop of [replSession], part_001:183-202, for one line.
    [input[1:]] is only evaluated for a line that starts with [!]. *)
Definition replInputStep (input : string) (s : Session place) : Session place :=
  let write :=
    let s' := act (PtyWrite (list_byte_of_string (sprintf_line input))) s in
    match writeErr env (length (actions s)) with
    | Some _ => leaveRepl s'
    | None => s'
    end in
  match input with
  | String "!" rest =>
      if String.eqb input "!help" then sendMarkdown availableCommandsMessage s
      else if String.eqb input "!exit" then leaveRepl s
      else
        match controlCharTable !! rest with
        | Some controlChar => act (PtyWrite [controlChar]) s
        | None => write
        end
  | _ => write
  end.

(** The output goroutine, part_001:146-180, for one received event. *)
Definition outputStep (ev : event) (r : repl) (s : Session place) : Session place :=
  match ev with
  | ReadResult bytes (OtherErr _) =>
      goto (InReplSession (mkRepl (message r) false true)) s
  | ReadResult bytes err =>
      let m := if (0 <? String.length bytes)%nat
               then message r +:+ strip_escapes bytes else message r in
      let '(m, s) := if (maxMessageLength <? String.length m)%nat
                     then ("", sendCode m s) else (m, s) in
      match err with
      | EOF =>
          let s := if (0 <? String.length m)%nat then sendCode m s else s in
          let s := close "REPL exited. Terminating session" s in
          goto (InReplSession (mkRepl m false (cancelled r))) s
      | _ => goto (InReplSession (mkRepl m true (cancelled r))) s
      end
  | Tick =>
      if (0 <? String.length (message r))%nat
      then goto (InReplSession (mkRepl "" true (cancelled r))) (sendCode (message r) s)
      else s
  | Input _ => s
  end.

(** One event of the schedule; an event nobody can receive at this
    point changes nothing. *)
Definition step (ev : event) (s : Session place) : Session place :=
  match at_ s, ev with
  | AtInputLoop, Input line => inputLoopStep line s
  | InReplSession r, Input line => replInputStep line s
  | InReplSession r, _ => if outputRunning r then outputStep ev r s else s
  | _, _ => s
  end.

Definition run (events : list event) (s : Session place) : Session place :=
  foldl (λ s ev, step ev s) s events.

(** [NewSession] and the start of [inputLoop] (part_001:56-77). *)
Definition NewSession : Session place :=
  sayHello availableREPLs (mkSession false [] AtInputLoop).

End WithEnv.

Definition reliable : Env := mkEnv (λ _, None) (λ _, None).

(** A schedule: the user starts bash, the read of the pty ends with
    [io.EOF], then a line [!help] that was waiting on the channel is
    received. *)
Definition eofThenHelp : list event :=
  [Input "bash"; ReadResult "" EOF; Input "!help"].

End Prototype.

(** ** src/session.go: the session on an error group *)
Module SessionGo.
Import SessionBase.

(** The goroutines of one [replSession] call (session.go:135-226): the
    reader of the pty, the response loop with its [message], the input
    loop; [cancelled] is [ctx.Done()], [firstErr] the error the group
    keeps for [Wait]. *)
Record repl : Type := mkRepl {
  message : string;
  readerRunning : bool;
  responseRunning : bool;
  inputRunning : bool;
  cancelled : bool;
  firstErr : option error
}.

Inductive place : Type :=
| AtUserInputLoop               (* session.go:83, receiving from s.userInputChan *)
| InReplSession (r : repl)      (* session.go:226, in errg.Wait() *)
| Finished                      (* userInputLoop has returned *)
| Crashed (reason : string).    (* a goroutine has panicked *)

(** What the goroutines receive or observe; the list given to [run] is
    one schedule. *)
Inductive event : Type :=
| Input (line : string)                       (* a line received from s.userInputChan *)
| ReadResult (bytes : string) (err : readErr) (* case result := <-readChan *)
| Tick                                        (* case <-time.After(300 * time.Millisecond) *)
| ReaderReturns (err : option error)          (* the reader of the pty returns *)
| ResponseSeesDone                            (* the response loop takes <-ctx.Done() *)
| InputSeesDone.                              (* the input loop takes <-ctx.Done() *)

(** Failures the outside can inject, by the number of actions so far:
    [PostMessage], [pty.Start] and the writes on the pty. *)
Record Env : Type := mkEnv {
  postErr : nat → option error;
  ptyStartErr : nat → option error;
  writeErr : nat → option error
}.

Definition is_errExit (e : error) : bool :=
  match e with errExit => true | _ => false end.

Inductive goroutine : Type := Reader | Response | InputLoop.

(** A function passed to [errg.Go] returns: the first error that is not
    nil is kept and cancels the context. *)
Definition finish (who : goroutine) (err : option error) (r : repl) : repl :=
  mkRepl (message r)
         (match who with Reader => false | _ => readerRunning r end)
         (match who with Response => false | _ => responseRunning r end)
         (match who with InputLoop => false | _ => inputRunning r end)
         (cancelled r || bool_decide (is_Some err))
         (match firstErr r with Some e => Some e | None => err end).

Section WithEnv.
Context (env : Env) (scripts : gmap string string).

(** session.go:96-99: what [userInputLoop] does with the result of
    [replSession]. *)
Definition afterRepl (err : option error) (s : Session place) : Session place :=
  let s := match err with
           | Some e => if is_errExit e then s else sendMarkdown (Error e) s
           | None => s
           end in
  goto AtUserInputLoop (sayExited scripts s).

(** [errg.Wait()] returns once the goroutines have returned. *)
Definition settle (r : repl) (s : Session place) : Session place :=
  if readerRunning r || responseRunning r || inputRunning r
  then goto (InReplSession r) s
  else afterRepl (firstErr r) s.

(** session.go:83-100 for one received line; a known command enters
    [replSession] (session.go:121-136). *)
Definition userInputLoopStep (input : string) (s : Session place) : Session place :=
  if String.eqb input exitCommand then goto Finished (close byeMessage s)
  else if String.eqb input helpCommand then sendMarkdown availableCommandsMessage s
  else
    match scripts !! input with
    | None => sendMarkdown "Invalid command" s
    | Some command =>
        let s' := sendMarkdown "Started a new REPL session" s in
        match postErr env (length (actions s)) with
        | Some err => afterRepl (Some err) s'
        | None =>
            match ptyStartErr env (length (actions s')) with
            | Some err =>
                afterRepl (Some (errOther ("cannot start REPL session: " +:+ Error err))) s'
            | None => goto (InReplSession (mkRepl "" true true true false None)) s'
            end
        end
    end.

(** session.go:265-280: the error it returns, or a panic. *)
Definition handleUserInput (input : string) (s : Session place)
  : outcome (option error) * Session place :=
  if String.eqb input helpCommand then
    (Return (postErr env (length (actions s))), sendMarkdown availableCommandsMessage s)
  else if String.eqb input exitCommand then (Return (Some errExit), s)
  else
    match slice_from_1 input with
    | Panic reason => (Panic reason, s)
    | Return rest =>
        match controlCharTable !! rest with
        | Some controlChar =>
            (Return (writeErr env (length (actions s))), act (PtyWrite [controlChar]) s)
        | None =>
            (Return (writeErr env (length (actions s))),
             act (PtyWrite (list_byte_of_string (sprintf_line input))) s)
        end
    end.

(** The input loop of [replSession], session.go:212-224. *)
Definition inputStep (ev : event) (r : repl) (s : Session place) : Session place :=
  match ev with
  | Input line =>
      match handleUserInput line s with
      | (Panic reason, s) => goto (Crashed reason) s
      | (Return (Some err), s) => settle (finish InputLoop (Some err) r) s
      | (Return None, s) => s
      end
  | InputSeesDone =>
      if cancelled r then settle (finish InputLoop None r) s else s
  | _ => s
  end.

(** The response loop of [replSession], session.go:177-210. *)
Definition responseStep (ev : event) (r : repl) (s : Session place) : Session place :=
  let with_message m :=
    mkRepl m (readerRunning r) (responseRunning r) (inputRunning r)
           (cancelled r) (firstErr r) in
  match ev with
  | ReadResult bytes (OtherErr e) => settle (finish Response (Some e) r) s
  | ReadResult bytes err =>
      let m := if (0 <? String.length bytes)%nat
               then message r +:+ strip_escapes bytes else message r in
      let '(m, s) := if (maxMessageLength <? String.length m)%nat
                     then ("", sendCode m s) else (m, s) in
      match err with
      | EOF =>
          let s := if (0 <? String.length m)%nat then sendCode m s else s in
          settle (finish Response (Some errExit) (with_message m)) s
      | _ => goto (InReplSession (with_message m)) s
      end
  | Tick =>
      if (0 <? String.length (message r))%nat
      then goto (InReplSession (with_message "")) (sendCode (message r) s)
      else s
  | ResponseSeesDone =>
      if cancelled r then settle (finish Response None r) s else s
  | _ => s
  end.

(** The reader of the pty, session.go:150-176: it returns [nil] only
    after the context is done. *)
Definition readerStep (err : option error) (r : repl) (s : Session place) : Session place :=
  match err with
  | Some e => settle (finish Reader (Some e) r) s
  | None => if cancelled r then settle (finish Reader None r) s else s
  end.

(** One event of the schedule; an event nobody can receive at this
    point changes nothing. *)
Definition step (ev : event) (s : Session place) : Session place :=
  match at_ s with
  | AtUserInputLoop =>
      match ev with
      | Input line => userInputLoopStep line s
      | _ => s
      end
  | InReplSession r =>
      match ev with
      | Input _ | InputSeesDone => if inputRunning r then inputStep ev r s else s
      | ReadResult _ _ | Tick | ResponseSeesDone =>
          if responseRunning r then responseStep ev r s else s
      | ReaderReturns err => if readerRunning r then readerStep err r s else s
      end
  | Finished | Crashed _ => s
  end.

Definition run (events : list event) (s : Session place) : Session place :=
  foldl (λ s ev, step ev s) s events.

(** [NewSession] and the start of [userInputLoop] (session.go:59-81). *)
Definition NewSession : Session place :=
  sayHello scripts (mkSession false [] AtUserInputLoop).

End WithEnv.

Definition reliable : Env := mkEnv (λ _, None) (λ _, None) (λ _, None).

(** What holds of the session at every point of every schedule: it is
    still open, or [userInputLoop] has returned and nothing was posted
    after the flag was set. *)
Definition QuietInv (s : Session place) : Prop :=
  StillOpen s ∨ (at_ s = Finished ∧ quietAfterClosed false (actions s) = true).

End SessionGo.

(** ** Vocabulary for the router and the forwarder of repl.go *)
Module ReplFacts.

(** A line that takes the last branch of [handleUserInput]
    (repl.go:99): it is not a command, not a comment, not empty, and
    what follows its first byte is no alias. *)
Definition plain (input : string) : bool :=
  negb (String.eqb input helpCommand) && negb (String.eqb input exitCommand) &&
  negb (String.prefix Repl.commentPrefix input) &&
  match input with
  | EmptyString => false
  | String _ rest => bool_decide (controlCharTable !! rest = None)
  end.

(** The write of a pasted line when the write succeeds. *)
Definition pasted (line : string) : list byte * option error :=
  (list_byte_of_string (sprintf_line line), None).

(** The strings of a list, one after the other. *)
Definition flatten (l : list string) : string := foldr String.append "" l.

(** The texts handed to [Send] so far, in order. *)
Definition texts (w : Repl.World) : list string := (λ x, x.1.1) <$> Repl.sent w.

(** What an event adds to the forwarder's [message] (repl.go:149). *)
Definition chunkText (ev : Repl.output_event) : string :=
  match ev with
  | Repl.OutChan result => strip_escapes result
  | _ => ""
  end.

Definition is_done (ev : Repl.output_event) : bool :=
  match ev with Repl.CtxDone => true | _ => false end.

(** The escape byte. *)
Definition ESC : ascii := "027"%char.

End ReplFacts.

(** ** src/bot/repl.go: the reader of the terminal *)
Module OutputLoop.

(** The error of [r.ptmx.Read(buf)]: none, the [*os.PathError] with
    [syscall.EIO] of a closed pty, [io.EOF], or any other error. *)
Inductive readError : Type :=
| ReadOk
| ReadEIO
| ReadEOF
| ReadFailed (e : error).

(** One iteration of the loop: the bytes [buf[:n]] and the error of the
    read, whether the context is done when the [select] of repl.go:110
    looks at it, and whether the [select] that sends on [r.outChan]
    takes the send (otherwise it takes the case of [r.ctx.Done()]). *)
Record read : Type := mkRead {
  bytes : string;
  readErr : readError;
  doneBefore : bool;
  sendTaken : bool
}.

Section WithMarker.
(** [strings.TrimSpace] and the random [r.exitMarker]. *)
Context (TrimSpace : string → string).
Context (exitMarker : string).

(** repl.go:108-138 for one read: the chunk sent on [r.outChan], if
    any, and the error returned, if the loop returns. *)
Definition readStep (r : read) : option string * option error :=
  if doneBefore r then (None, Some errExit)
  else
    match readErr r with
    | ReadEIO => (None, Some errExit)
    | ReadEOF =>
        if (0 <? String.length (bytes r))%nat && sendTaken r
        then (Some (bytes r), Some errExit)
        else (None, Some errExit)
    | ReadFailed e => (None, Some e)
    | ReadOk =>
        if String.eqb (TrimSpace (bytes r)) exitMarker then (None, Some errExit)
        else if (0 <? String.length (bytes r))%nat then
          if sendTaken r then (Some (bytes r), None) else (None, Some errExit)
        else (None, None)
    end.

(** repl.go:104-140: the chunks sent on [r.outChan], in order, and
    whether the loop has returned. *)
Fixpoint commandOutputLoop (reads : list read) : list string * Repl.status :=
  match reads with
  | [] => ([], Repl.Running)
  | r :: reads' =>
      match readStep r with
      | (chunk, Some err) => (option_list chunk, Repl.Returned (Some err))
      | (chunk, None) =>
          let '(chunks, st) := commandOutputLoop reads' in
          ((option_list chunk ++ chunks)%list, st)
      end
  end.

(** A read that gives output and lets the loop go on. *)
Definition clean (r : read) : bool :=
  match readErr r with ReadOk => true | _ => false end &&
  negb (doneBefore r) && sendTaken r &&
  negb (String.eqb (TrimSpace (bytes r)) exitMarker).

End WithMarker.

(** The chunks a schedule of the forwarder receives from [r.outChan]. *)
Definition received (events : list Repl.output_event) : list string :=
  omap (λ ev, match ev with Repl.OutChan result => Some result | _ => None end) events.

(** A [TrimSpace] for examples: output without white space around it. *)
Definition noTrim (s : string) : string := s.

Definition exampleReads : list read :=
  [mkRead "$ " ReadOk false true; mkRead "" ReadOk false true;
   mkRead "ls" ReadOk false true].

End OutputLoop.

(** ** src/bot/bot.go: from a message to a session *)
Module Dispatch.
Import Bot.

(** [strings.Contains(s, substr)] *)
Fixpoint Contains (s substr : string) : bool :=
  String.prefix substr s ||
  match s with
  | EmptyString => false
  | String _ rest => Contains rest substr
  end.

(** What [handleMessageEvent] did with a message: forwarded it, ignored
    it, answered through [handleHelp], started a session, or returned
    the error of the [default] case of bot.go:151. *)
#[global] Instance channelType_eq_dec : EqDecision channelType.
Proof. solve_decision. Defined.

Inductive handled : Type :=
| Forwarded
| Ignored
| Help (target : chatID) (err : parseError)
| Started (conf : sessionConfig)
| UnexpectedMode (mode : string).

Section WithOutside.
(** [newSession] of bot/session.go is not part of the sources at hand;
    the dispatcher is embedded over any. *)
Context (SanitizeNonAlphanumeric : string → string).
Context (MentionBot : string).
Context (RandomPort : nat → Z + error).
Context (newSession : sessionConfig → session).

(** [conf.ID = id; conf.Control = control; conf.Terminal = terminal] *)
Definition placed (id : string) (control terminal : chatID) (conf : sessionConfig)
  : sessionConfig :=
  mkSessionConfig id (ConfUser conf) (Some control) (Some terminal) (ConfScript conf)
                  (ControlMode conf) (WindowMode conf) (AuthMode conf) (ConfSize conf)
                  (RelayPort conf).

(** bot.go:272-289, up to its [return nil]: the session is registered;
    the goroutine that runs it removes it when it ends ([sessionEnds]). *)
Definition startSession (conf : sessionConfig) (b : Bot) : handled * Bot :=
  (Started conf,
   mkBot (config b) (<[ConfID conf := newSession conf]> (sessions b)) (closedConns b)).

(** bot.go:284-286 *)
Definition sessionEnds (conf : sessionConfig) (b : Bot) : Bot :=
  mkBot (config b) (delete (ConfID conf) (sessions b)) (closedConns b).

(** bot.go:239-244 *)
Definition startSessionChannel (ev : messageEvent) (conf : sessionConfig) (b : Bot)
  : handled * Bot :=
  let control := mkChatID (EvChannel ev) "" in
  startSession
    (placed (SanitizeNonAlphanumeric (EvChannel ev +:+ "_" +:+ "")) control control conf) b.

(** bot.go:246-257 *)
Definition startSessionThread (ev : messageEvent) (conf : sessionConfig) (b : Bot)
  : handled * Bot :=
  if String.eqb (EvThread ev) "" then
    let control := mkChatID (EvChannel ev) (ID ev) in
    startSession
      (placed (SanitizeNonAlphanumeric (EvChannel ev +:+ "_" +:+ ID ev)) control control conf) b
  else
    let control := mkChatID (EvChannel ev) (EvThread ev) in
    startSession
      (placed (SanitizeNonAlphanumeric (EvChannel ev +:+ "_" +:+ EvThread ev))
              control control conf) b.

(** bot.go:259-270 *)
Definition startSessionSplit (ev : messageEvent) (conf : sessionConfig) (b : Bot)
  : handled * Bot :=
  if String.eqb (EvThread ev) "" then
    startSession
      (placed (SanitizeNonAlphanumeric (EvChannel ev +:+ "_" +:+ ID ev))
              (mkChatID (EvChannel ev) (ID ev)) (mkChatID (EvChannel ev) "") conf) b
  else
    startSession
      (placed (SanitizeNonAlphanumeric (EvChannel ev +:+ "_" +:+ EvThread ev))
              (mkChatID (EvChannel ev) (EvThread ev)) (mkChatID (EvChannel ev) "") conf) b.

(** bot.go:132-154 *)
Definition handleMessageEvent (ev : messageEvent) (b : Bot) : handled * Bot :=
  let '(forwarded, b) := maybeForwardMessage SanitizeNonAlphanumeric ev b in
  if forwarded then (Forwarded, b)
  else if bool_decide (ChannelType ev = channelTypeUnknown) then (Ignored, b)
  else if bool_decide (ChannelType ev = channelTypeChannel) &&
          negb (Contains (Message ev) MentionBot) then (Ignored, b)
  else
    match parseSessionConfig MentionBot RandomPort b ev with
    | inr err => (Help (mkChatID (EvChannel ev) (EvThread ev)) err, b)
    | inl conf =>
        if String.eqb (ControlMode conf) Channel then startSessionChannel ev conf b
        else if String.eqb (ControlMode conf) Thread then startSessionThread ev conf b
        else if String.eqb (ControlMode conf) Split then startSessionSplit ev conf b
        else (UnexpectedMode (ControlMode conf), b)
    end.

End WithOutside.

(** A [newSession] for examples: the session of a configuration is
    active and has nothing waiting. *)
Definition freshSession (conf : sessionConfig) : session :=
  mkSession conf (RelayPort conf) true [] None.

(** A registry without sessions, and the message that asks for bash. *)
Definition quietBot : Bot := mkBot exampleConfig ∅ [].
Definition askBash (mode : string) : messageEvent :=
  mkMessageEvent "17" "C1" channelTypeChannel "" "U1" ("@replbot bash " +:+ mode).
Definition noPort (i : nat) : Z + error := inr (errOther "no port").

End Dispatch.

(** ** src/bot/conn_mem.go: the connection used for testing *)
Module MemConn.
Import Bot.

Record memConn : Type := mkMemConn {
  messages : gmap string messageEvent;
  currentID : nat
}.

(** conn_mem.go:30-37 *)
Definition newMemConn : memConn := mkMemConn ∅ 0.

(** [strconv.Itoa] of a number that is not negative. *)
Definition Itoa (n : nat) : string := pretty n.

Section WithZero.
(** The zero value of the channel type, which is declared in a file
    that is not part of the sources at hand. *)
Context (zeroChannelType : channelType).

(** The message event that [Send], [SendWithID] and [Update] store. *)
Definition stored (id : string) (target : chatID) (message : string) : messageEvent :=
  mkMessageEvent id (ChatChannel target) zeroChannelType (ChatThread target) "" message.

(** conn_mem.go:43-54 *)
Definition Send (target : chatID) (message : string) (c : memConn) : option error * memConn :=
  let currentID := S (currentID c) in
  (None,
   mkMemConn (<[Itoa currentID := stored (Itoa currentID) target message]> (messages c))
             currentID).

(** conn_mem.go:56-67 *)
Definition SendWithID (target : chatID) (message : string) (c : memConn)
  : string * option error * memConn :=
  let currentID := S (currentID c) in
  (Itoa currentID, None,
   mkMemConn (<[Itoa currentID := stored (Itoa currentID) target message]> (messages c))
             currentID).

(** conn_mem.go:69-79 *)
Definition Update (target : chatID) (id message : string) (c : memConn)
  : option error * memConn :=
  (None, mkMemConn (<[id := stored id target message]> (messages c)) (currentID c)).

(** conn_mem.go:112-127: a copy of the stored message, or nil. *)
Definition Message (id : string) (c : memConn) : option messageEvent :=
  messages c !! id.

(** The connection after a list of sends. *)
Definition sendAll (sends : list (chatID * string)) (c : memConn) : memConn :=
  foldl (λ c s, (Send s.1 s.2 c).2) c sends.

End WithZero.

(** conn_mem.go:89-106 *)
Definition MentionBot : string := "@replbot".
Definition Mention (user : string) : string := "@" +:+ user.
Definition Unescape (s : string) : string := s.

Definition exampleSends : list (chatID * string) :=
  [(mkChatID "C1" "", "one"); (mkChatID "C1" "17", "two"); (mkChatID "C2" "", "three")].

End MemConn.

(** ** src/unnamed/part_000: the first dispatcher *)
Module OldBot.

(** [fmt.Sprintf(welcomeMessage, me, example, repls)] *)
Definition welcomeMessage (me example repls : string) : string :=
  "Hi there 👋! I'm a robot that you can use to control a REPL from Slack. " +:+
  "To start a new session, simply tag me and name one of the available REPLs, like so: " +:+
  me +:+ " " +:+ example +:+ String "010" (String "010" "") +:+
  "Available REPLs: " +:+ repls +:+
  ". You can also use the words `thread` or `channel` to control where the session " +:+
  "is started, or DM me for a private REPL.".

Definition useAsInputThreadMessage : string :=
  "Split mode is a bit special. Use this thread to enter your commands. Your output will " +:+
  "appear in the main channel.".

(** [slack.MessageEvent], the fields the dispatcher reads. *)
Record MessageEvent : Type := mkMessageEvent {
  User : string;
  Channel : string;
  Text : string;
  Timestamp : string;
  ThreadTimestamp : string
}.

(** A call of [Send] on the sender that
    [NewSlackSender(b.rtm, channel, threadTS)] makes. *)
Record post : Type := mkPost {
  toChannel : string;
  toThread : string;
  body : string;
  format : Repl.Format
}.

(** [Bot]: the user id, the registry, and what the bot has posted. *)
Record Bot (Session : Type) : Type := mkBot {
  userID : string;
  sessions : gmap string Session;
  posts : list post
}.
Arguments mkBot {Session} userID sessions posts.
Arguments userID {Session} b.
Arguments sessions {Session} b.
Arguments posts {Session} b.

Section WithOutside.
(** The session type with [NewSession], [Active] and [HandleUserInput],
    the [config] package and [util.StringContains] are not part of the
    sources at hand; the dispatcher is embedded over any of them.
    [NewSession] is given the session id, the channel and the thread of
    its sender, the script and the mode. *)
Context {Session : Type}.
Context (NewSession : string → string → string → string → string → Session).
Context (Active : Session → bool).
Context (HandleUserInput : string → Session → Session).
Context (Script : string → string).
Context (Scripts : list string).
Context (DefaultMode ModeThread ModeChannel ModeSplit : string).
Context (StringContains : list string → string → bool).
Context (sendResult : nat → option error).

(** part_000:235-239 *)
Definition me (b : Bot Session) : string := "<@" +:+ userID b +:+ ">".

(** [sender.Send(message, format)] *)
Definition Send (channel threadTS message : string) (format : Repl.Format) (b : Bot Session)
  : option error * Bot Session :=
  (sendResult (length (posts b)),
   mkBot (userID b) (sessions b) (posts b ++ [mkPost channel threadTS message format])%list).

(** The loop of part_000:208-212: [script] after the loop. *)
Fixpoint firstScript (fields : list string) : string :=
  match fields with
  | [] => ""
  | f :: fields' =>
      if negb (String.eqb (Script f) "") then Script f else firstScript fields'
  end.

(** part_000:205-223 *)
Definition parseMessage (b : Bot Session) (message : string) : bool * string * string :=
  let fields := Bot.Fields message in
  (StringContains fields (me b),
   firstScript fields,
   if StringContains fields ModeThread then ModeThread
   else if StringContains fields ModeChannel then ModeChannel
   else if StringContains fields ModeSplit then ModeSplit
   else DefaultMode).

(** part_000:231-233 *)
Definition replList : string := "`" +:+ String.concat "`, `" Scripts +:+ "`".

(** part_000:225-229: [scripts[1]] panics when there are fewer than two
    scripts; the arguments of [Send] are evaluated before the call. *)
Definition handleHelp (ev : MessageEvent) (b : Bot Session)
  : outcome (option error) * Bot Session :=
  match Scripts !! 1%nat with
  | None => (Panic "index out of range [1]", b)
  | Some example =>
      let '(err, b) := Send (Channel ev) (ThreadTimestamp ev)
                            (welcomeMessage (me b) example replList) Repl.Markdown b in
      (Return err, b)
  end.

(** part_000:185-193 *)
Definition maybeForwardMessage (sessionID message : string) (b : Bot Session)
  : bool * Bot Session :=
  match sessions b !! sessionID with
  | Some session =>
      if Active session then
        (true, mkBot (userID b)
                     (<[sessionID := HandleUserInput message session]> (sessions b))
                     (posts b))
      else (false, b)
  | None => (false, b)
  end.

(** part_000:165-183, up to its [return nil]. *)
Definition startSession (sessionID channel threadTS script mode : string) (b : Bot Session)
  : outcome (option error) * Bot Session :=
  (Return None,
   mkBot (userID b)
         (<[sessionID := NewSession sessionID channel threadTS script mode]> (sessions b))
         (posts b)).

(** [fmt.Sprintf("%s:%s", channel, ts)] *)
Definition sessionIDOf (channel ts : string) : string := channel +:+ ":" +:+ ts.

(** part_000:112-122 *)
Definition handleDirectMessageEvent (ev : MessageEvent) (b : Bot Session)
  : outcome (option error) * Bot Session :=
  let sessionID := sessionIDOf (Channel ev) (ThreadTimestamp ev) in
  let '(forwarded, b) := maybeForwardMessage sessionID (Text ev) b in
  if forwarded then (Return None, b)
  else
    let '(_, script, _) := parseMessage b (Text ev) in
    if String.eqb script "" then handleHelp ev b
    else startSession sessionID (Channel ev) (ThreadTimestamp ev) script ModeChannel b.

(** part_000:124-163 *)
Definition handleChannelMessageEvent (ev : MessageEvent) (b : Bot Session)
  : outcome (option error) * Bot Session :=
  let sessionID := sessionIDOf (Channel ev) (ThreadTimestamp ev) in
  let '(forwarded, b) := maybeForwardMessage sessionID (Text ev) b in
  if forwarded then (Return None, b)
  else
    let '(mentioned, script, mode) := parseMessage b (Text ev) in
    if negb mentioned then (Return None, b)
    else if String.eqb script "" then handleHelp ev b
    else if String.eqb mode ModeThread then
      if String.eqb (ThreadTimestamp ev) "" then
        startSession (sessionIDOf (Channel ev) (Timestamp ev)) (Channel ev) (Timestamp ev)
                     script mode b
      else
        startSession (sessionIDOf (Channel ev) (ThreadTimestamp ev)) (Channel ev)
                     (ThreadTimestamp ev) script mode b
    else if String.eqb mode ModeSplit then
      let inputThread :=
        if String.eqb (ThreadTimestamp ev) "" then Timestamp ev else ThreadTimestamp ev in
      let '(err, b) := Send (Channel ev) inputThread useAsInputThreadMessage Repl.Text b in
      match err with
      | Some e => (Return (Some e), b)
      | None => startSession (sessionIDOf (Channel ev) inputThread) (Channel ev) "" script mode b
      end
    else
      startSession (sessionIDOf (Channel ev) (ThreadTimestamp ev)) (Channel ev) "" script mode b.

(** part_000:100-110 *)
Definition handleMessageEvent (ev : MessageEvent) (b : Bot Session)
  : outcome (option error) * Bot Session :=
  if String.eqb (User ev) "" then (Return None, b)
  else if String.prefix "D" (Channel ev) then handleDirectMessageEvent ev b
  else if String.prefix "C" (Channel ev) then handleChannelMessageEvent ev b
  else (Return None, b).

End WithOutside.

(** A configuration with the single script bash, and a configuration
    with two; sessions that only record their id. *)
Definition oneScript (name : string) : string :=
  if String.eqb name "bash" then "/etc/replbot/bash" else "".
Definition contains (l : list string) (s : string) : bool := existsb (String.eqb s) l.
Definition emptyBot : Bot string := mkBot "UBOT" ∅ [].
Definition hello : MessageEvent := mkMessageEvent "U1" "D1" "hello" "17" "".

End OldBot.

(** * Properties *)

Local Open Scope nat_scope.
Local Open Scope list_scope.

(** ** The control-byte table and the input router (repl.go, session.go) *)

Example handleUserInput_bang_ret :
  Repl.handleUserInput Repl.reliable "!ret" Repl.emptyWorld
  = (Return None, Repl.mkWorld [] [([x10], None)]).
Proof. reflexivity. Qed.

(** The table has exactly four aliases. *)
Lemma controlCharTable_keys (a : string) (c : byte) :
  controlCharTable !! a = Some c →
  (a = "r" ∧ c = x10) ∨ (a = "ret" ∧ c = x10) ∨
  (a = "ctrl-c" ∧ c = x03) ∨ (a = "ctrl-d" ∧ c = x04).
Proof.
  unfold controlCharTable.
  rewrite !lookup_insert_Some, lookup_singleton_Some.
  intros [[<- <-]|[_ [[<- <-]|[_ [[<- <-]|[_ [<- <-]]]]]]]; auto.
Qed.

(** C4.  The table of the code maps [r] and [ret] to the byte 0x10, not
    to 0x0A, and [ctrl-c], [ctrl-d] to 0x03, 0x04; the line [!ret]
    therefore writes the single byte 0x10 to the terminal, which is not
    the newline the help text announces. *)
Theorem controlCharTable_ret_is_0x10 :
  controlCharTable !! "r" = Some x10 ∧
  controlCharTable !! "ret" = Some x10 ∧
  controlCharTable !! "ctrl-c" = Some x03 ∧
  controlCharTable !! "ctrl-d" = Some x04 ∧
  x10 ≠ x0a ∧
  ∀ env w,
    Repl.handleUserInput env "!ret" w = Repl.Write env [x10] w ∧
    Repl.handleUserInput env "!r" w = Repl.Write env [x10] w.
Proof.
  repeat split; try reflexivity. discriminate.
Qed.

(** C10.  The empty line makes [handleUserInput] evaluate [input[1:]]
    out of range: the call panics instead of returning, and so does the
    input loop that received the line. *)
Theorem handleUserInput_empty_panics (env : Repl.Env) (w : Repl.World)
    (events : list Repl.input_event) :
  Repl.handleUserInput env "" w = (Panic "slice bounds out of range [1:0]", w) ∧
  Repl.userInputLoop env (Repl.Line "" :: events) w
  = (Panic "slice bounds out of range [1:0]", w).
Proof. split; reflexivity. Qed.

(** The empty line is the only one: every other line is handled. *)
Lemma handleUserInput_nonempty_returns (env : Repl.Env) (input : string) (w : Repl.World) :
  input ≠ "" → ∃ err w', Repl.handleUserInput env input w = (Return err, w').
Proof.
  intros Hne. unfold Repl.handleUserInput.
  destruct (String.eqb input helpCommand); [eexists _, _; reflexivity|].
  destruct (String.eqb input exitCommand); [eexists _, _; reflexivity|].
  destruct (String.prefix Repl.commentPrefix input); [eexists _, _; reflexivity|].
  destruct input as [|c rest]; [done|].
  unfold mbind, Repl.M_bind, Repl.lift_outcome; simpl.
  destruct (controlCharTable !! rest); eexists _, _; reflexivity.
Qed.

(** The prototype only slices a line that starts with [!]: there the
    empty line is written to the pty as a newline. *)
Example prototype_empty_line_is_written :
  SessionBase.actions
    (Prototype.replInputStep Prototype.reliable ""
       (SessionBase.mkSession false []
          (Prototype.InReplSession (Prototype.mkRepl "" true false))))
  = [SessionBase.PtyWrite [x0a]].
Proof. reflexivity. Qed.

(** The handler of session.go has no comment rule and the same slice. *)
Lemma session_handleUserInput_empty_panics
    (env : SessionGo.Env) (s : SessionBase.Session SessionGo.place) :
  SessionGo.handleUserInput env "" s = (Panic "slice bounds out of range [1:0]", s).
Proof. reflexivity. Qed.

(** C7, as the code has it.  For a registered alias [a] the line
    ["!" ++ a] writes exactly the control byte, while the plain line [a]
    is not recognised: it is written as text followed by a newline. *)
Theorem bang_alias_writes_byte_plain_is_text
    (env : Repl.Env) (a : string) (c : byte) (w : Repl.World) :
  controlCharTable !! a = Some c →
  Repl.handleUserInput env ("!" +:+ a) w = Repl.Write env [c] w ∧
  Repl.handleUserInput env a w
  = Repl.Write env (list_byte_of_string (sprintf_line a)) w.
Proof.
  intros Ha.
  destruct (controlCharTable_keys _ _ Ha) as [[-> ->]|[[-> ->]|[[-> ->]|[-> ->]]]];
    split; reflexivity.
Qed.

Lemma bang_alias_writes_byte_plain_is_text_witness :
  controlCharTable !! "ctrl-c" = Some x03 ∧
  Repl.handleUserInput Repl.reliable "!ctrl-c" Repl.emptyWorld
  = Repl.Write Repl.reliable [x03] Repl.emptyWorld ∧
  Repl.handleUserInput Repl.reliable "ctrl-c" Repl.emptyWorld
  = Repl.Write Repl.reliable (list_byte_of_string (sprintf_line "ctrl-c")) Repl.emptyWorld.
Proof.
  split; [reflexivity|].
  apply (bang_alias_writes_byte_plain_is_text Repl.reliable "ctrl-c" x03 Repl.emptyWorld).
  reflexivity.
Defined.

(** C7 as stated fails: the plain alias [ctrl-c] is pasted as the text
    line [ctrl-c] with a newline, the prefixed [!ctrl-c] writes 0x03. *)
Lemma plain_alias_differs_from_bang_alias :
  Repl.handleUserInput Repl.reliable "ctrl-c" Repl.emptyWorld
  = (Return None,
     Repl.mkWorld [] [(list_byte_of_string ("ctrl-c" +:+ String "010" ""), None)]) ∧
  Repl.handleUserInput Repl.reliable "!ctrl-c" Repl.emptyWorld
  = (Return None, Repl.mkWorld [] [([x03], None)]) ∧
  Repl.handleUserInput Repl.reliable "ctrl-c" Repl.emptyWorld
  ≠ Repl.handleUserInput Repl.reliable "!ctrl-c" Repl.emptyWorld.
Proof. repeat split; try reflexivity. discriminate. Qed.

(** ** The output forwarder (repl.go) *)

(** The escape pattern on a coloured prompt, on an unfinished sequence
    and on a sequence without its letter. *)
Example strip_escapes_colour :
  strip_escapes (String "027" "[1;31mred" +:+ String "027" "[0m$ ") = "red$ ".
Proof. reflexivity. Qed.

Example strip_escapes_unfinished :
  strip_escapes (String "027" "[12;") = String "027" "[12;" ∧
  strip_escapes (String "027" "[1 m") = String "027" "[1 m".
Proof. split; reflexivity. Qed.

Lemma strip_from_length (s : string) (skip : nat) :
  String.length (strip_from skip s) ≤ String.length s.
Proof.
  revert skip. induction s as [|c s IH]; intros skip; [done|].
  destruct skip as [|k]; [|specialize (IH k); simpl; lia].
  change (strip_from 0 (String c s))
    with (match match_escape (String c s) with
          | Some n => strip_from (pred n) s
          | None => String c (strip_from 0 s)
          end).
  destruct (match_escape (String c s)) as [n|].
  - specialize (IH (pred n)). simpl. lia.
  - specialize (IH 0). simpl. lia.
Qed.

(** Runs the monad of the runner in the goal. *)
Ltac run_M :=
  repeat progress
    (unfold mbind, mret, Repl.M_bind, Repl.M_ret, Repl.lift_outcome,
       Repl.Send, Repl.Write in *;
     simpl in *).

Lemma length_append (a b : string) :
  String.length (a +:+ b) = (String.length a + String.length b)%nat.
Proof. induction a as [|c a IH]; simpl; [done|]. by rewrite IH. Qed.

Lemma accumulate_length_ge (chunks : list string) (message : string) :
  (String.length message ≤ String.length (Repl.accumulate message chunks))%nat.
Proof.
  revert message. induction chunks as [|c chunks IH]; intros message; simpl; [done|].
  etrans; [|apply IH]. rewrite length_append. lia.
Qed.

(** A send that fails ends the forwarder at once, whatever follows. *)
Lemma forwarder_failed_send_returns (env : Repl.Env) (message m : string)
    (ev : Repl.output_event) (events : list Repl.output_event) (w : Repl.World) (e : error) :
  Repl.posted message ev = Some m →
  Repl.sendResult env (length (Repl.sent w)) = Some e →
  Repl.forwarderLoop env (ev :: events) message w
  = (Return (Repl.Returned (Some e)),
     Repl.mkWorld (Repl.sent w ++ [(m, Repl.Code, Some e)]) (Repl.written w)).
Proof.
  intros Hp He. simpl.
  unfold Repl.forwarderStep, Repl.posted in *.
  destruct ev; simpl in *;
    (match type of Hp with
     | (if ?c then _ else _) = _ => destruct c; [|discriminate]
     end);
    injection Hp as <-; run_M; rewrite He; reflexivity.
Qed.

(** C6, as the code has it.  A chat send that fails while the forwarder
    flushes terminal output is fatal to the output task: the forwarder
    returns that error at once and the text is not sent again, whatever
    events follow. *)
Theorem forwarder_send_failure_is_fatal (env : Repl.Env) (message m : string)
    (ev : Repl.output_event) (events : list Repl.output_event) (w : Repl.World) (e : error) :
  Repl.posted message ev = Some m →
  Repl.sendResult env (length (Repl.sent w)) = Some e →
  ∃ w', Repl.forwarderLoop env (ev :: events) message w
        = (Return (Repl.Returned (Some e)), w') ∧
        Repl.sent w' = Repl.sent w ++ [(m, Repl.Code, Some e)].
Proof.
  intros Hp He. eexists. split.
  - by apply forwarder_failed_send_returns.
  - reflexivity.
Qed.

Lemma forwarder_send_failure_is_fatal_witness :
  ∃ w', Repl.forwarderLoop Repl.failingOnce
          [Repl.TimeAfter; Repl.OutChan "more"; Repl.TimeAfter] "hi" Repl.emptyWorld
        = (Return (Repl.Returned (Some (errOther "chat send failed"))), w') ∧
        Repl.sent w' = Repl.sent Repl.emptyWorld
                       ++ [("hi", Repl.Code, Some (errOther "chat send failed"))].
Proof.
  apply (forwarder_send_failure_is_fatal Repl.failingOnce "hi" "hi" Repl.TimeAfter
           [Repl.OutChan "more"; Repl.TimeAfter] Repl.emptyWorld
           (errOther "chat send failed")); reflexivity.
Defined.

(** C6 as stated fails: the first send fails, the forwarder returns the
    error; the next tick, at which the send would have succeeded, is
    never reached and the text is sent once only. *)
Lemma forwarder_does_not_retry :
  Repl.commandOutputForwarder Repl.failingOnce
    [Repl.OutChan "hi"; Repl.TimeAfter; Repl.OutChan "more"; Repl.TimeAfter]
    Repl.emptyWorld
  = (Return (Repl.Returned (Some (errOther "chat send failed"))),
     Repl.mkWorld [("hi", Repl.Code, Some (errOther "chat send failed"))] []).
Proof. reflexivity. Qed.

(** What one iteration of the forwarder sends: the text of [posted], or
    nothing. *)
Lemma forwarderStep_sent (env : Repl.Env) (message : string)
    (ev : Repl.output_event) (w : Repl.World) :
  Repl.sent (Repl.forwarderStep env message ev w).2
  = Repl.sent w ++
    match Repl.posted message ev with
    | Some m => [(m, Repl.Code, Repl.sendResult env (length (Repl.sent w)))]
    | None => []
    end.
Proof.
  unfold Repl.forwarderStep, Repl.posted.
  destruct ev; simpl;
    (match goal with |- context [if ?c then _ else _] => destruct c end); run_M;
    rewrite ?app_nil_r; try done;
    destruct (Repl.sendResult env (length (Repl.sent w))); done.
Qed.

(** One iteration of the forwarder sends at most once. *)
Lemma forwarderStep_sends_at_most_once (env : Repl.Env) (message : string)
    (ev : Repl.output_event) (w : Repl.World) :
  length (Repl.sent (Repl.forwarderStep env message ev w).2) ≤ S (length (Repl.sent w)).
Proof.
  rewrite forwarderStep_sent, length_app.
  destruct (Repl.posted message ev); simpl; lia.
Qed.

(** Chunks that keep the buffer within the limit are only appended. *)
Lemma forwarderLoop_accumulates (env : Repl.Env) (chunks : list string)
    (events : list Repl.output_event) (message : string) (w : Repl.World) :
  String.length (Repl.accumulate message chunks) ≤ maxMessageLength →
  Repl.forwarderLoop env ((Repl.OutChan <$> chunks) ++ events) message w
  = Repl.forwarderLoop env events (Repl.accumulate message chunks) w.
Proof.
  revert message. induction chunks as [|c chunks IH]; intros message Hlen; [done|].
  pose proof (accumulate_length_ge chunks (message +:+ strip_escapes c)) as Hge.
  simpl in *. unfold mbind, Repl.M_bind. simpl.
  destruct (Nat.ltb_spec maxMessageLength (String.length (message +:+ strip_escapes c)));
    [lia|].
  simpl. by apply IH.
Qed.

(** What a single iteration leaves in the list of sends. *)
Lemma forwarderLoop_single (env : Repl.Env) (ev : Repl.output_event) (message : string)
    (w : Repl.World) :
  Repl.sent (Repl.forwarderLoop env [ev] message w).2
  = Repl.sent (Repl.forwarderStep env message ev w).2.
Proof.
  cbn [Repl.forwarderLoop]. unfold mbind, Repl.M_bind.
  by destruct (Repl.forwarderStep env message ev w) as [[[message'|err]|reason] w1].
Qed.

(** C9, as the code has it.  Every iteration of the forwarder posts at
    most one message; output that arrives before a timer expiry is
    coalesced into the one message of that expiry as long as the
    accumulated text stays within [maxMessageLength] (512 bytes): the
    chunks themselves post nothing, and the expiry posts the accumulated
    text as one message (none if there is no text); a chunk that takes
    the accumulated text over the limit is posted at once, without a
    timer expiry. *)
Theorem forwarder_coalesces_within_limit (env : Repl.Env) (chunks : list string)
    (events : list Repl.output_event) (message : string) (w : Repl.World) :
  String.length (Repl.accumulate message chunks) ≤ maxMessageLength →
  Repl.forwarderLoop env ((Repl.OutChan <$> chunks) ++ Repl.TimeAfter :: events) message w
  = Repl.forwarderLoop env (Repl.TimeAfter :: events) (Repl.accumulate message chunks) w ∧
  (∀ ev m w0,
     length (Repl.sent (Repl.forwarderStep env m ev w0).2) ≤ S (length (Repl.sent w0))) ∧
  (∀ result m w0,
     maxMessageLength < String.length (m +:+ strip_escapes result) →
     Repl.sent (Repl.forwarderStep env m (Repl.OutChan result) w0).2
     = Repl.sent w0 ++ [(m +:+ strip_escapes result, Repl.Code,
                         Repl.sendResult env (length (Repl.sent w0)))]) ∧
  Repl.sent (Repl.forwarderLoop env (Repl.OutChan <$> chunks) message w).2 = Repl.sent w ∧
  Repl.sent (Repl.forwarderLoop env ((Repl.OutChan <$> chunks) ++ [Repl.TimeAfter]) message w).2
  = Repl.sent w ++
    (if (0 <? String.length (Repl.accumulate message chunks))%nat
     then [(Repl.accumulate message chunks, Repl.Code,
            Repl.sendResult env (length (Repl.sent w)))]
     else []).
Proof.
  intros Hlen. split_and!.
  - by apply forwarderLoop_accumulates.
  - intros. apply forwarderStep_sends_at_most_once.
  - intros result m w0 Hover. rewrite forwarderStep_sent. simpl.
    by destruct (Nat.ltb_spec maxMessageLength (String.length (m +:+ strip_escapes result)));
      [|lia].
  - rewrite <- (app_nil_r (Repl.OutChan <$> chunks)).
    by rewrite (forwarderLoop_accumulates env chunks [] message w Hlen).
  - rewrite (forwarderLoop_accumulates env chunks [Repl.TimeAfter] message w Hlen).
    rewrite forwarderLoop_single, forwarderStep_sent. unfold Repl.posted.
    by destruct (0 <? String.length (Repl.accumulate message chunks)).
Qed.

Lemma forwarder_coalesces_within_limit_witness :
  Repl.sent (Repl.forwarderLoop Repl.reliable (Repl.OutChan <$> ["$ echo hi"; " hi"])
               "" Repl.emptyWorld).2
  = Repl.sent Repl.emptyWorld ∧
  Repl.sent (Repl.forwarderLoop Repl.reliable
               ((Repl.OutChan <$> ["$ echo hi"; " hi"]) ++ [Repl.TimeAfter])
               "" Repl.emptyWorld).2
  = Repl.sent Repl.emptyWorld ++
    (if (0 <? String.length (Repl.accumulate "" ["$ echo hi"; " hi"]))%nat
     then [(Repl.accumulate "" ["$ echo hi"; " hi"], Repl.Code,
            Repl.sendResult Repl.reliable (length (Repl.sent Repl.emptyWorld)))]
     else []).
Proof.
  apply (forwarder_coalesces_within_limit Repl.reliable ["$ echo hi"; " hi"] []
           "" Repl.emptyWorld).
  vm_compute. lia.
Defined.

(** C9 as stated fails: four full read buffers arrive one millisecond
    apart, no timer expires, and two messages are posted, 2 ms and 4 ms
    after the start. *)
Lemma forwarder_posts_twice_without_tick :
  Repl.timely Repl.burst = true ∧
  Repl.postTimes Repl.reliable 0 Repl.burst "" Repl.emptyWorld = [2; 4] ∧
  length (Repl.sent (Repl.commandOutputForwarder Repl.reliable Repl.burst.*2
                       Repl.emptyWorld).2) = 2.
Proof. repeat split; vm_compute; reflexivity. Qed.

(** ** The dispatcher (bot.go) *)

Lemma eqb_refl_true (x y : string) : x = y → String.eqb x y = true.
Proof. intros ->. apply String.eqb_refl. Qed.

(** What [applySessionConfigDefaults] does to the size and the window
    mode once the control mode has come out as thread. *)
Lemma applySessionConfigDefaults_thread (b : Bot.Bot) (ev : Bot.messageEvent)
    (conf : Bot.sessionConfig) :
  Bot.ControlMode (Bot.applySessionConfigDefaults b ev conf) = Bot.Thread →
  Bot.ConfSize (Bot.applySessionConfigDefaults b ev conf)
  = Some (default Bot.Tiny (Bot.ConfSize conf)) ∧
  Bot.WindowMode (Bot.applySessionConfigDefaults b ev conf)
  = (if String.eqb (Bot.WindowMode conf) "" then Bot.Trim else Bot.WindowMode conf).
Proof.
  unfold Bot.applySessionConfigDefaults. cbn [Bot.ControlMode Bot.ConfSize Bot.WindowMode].
  intros Hmode. apply eqb_refl_true in Hmode. rewrite Hmode.
  by destruct (Bot.ConfSize conf).
Qed.

(** C8.  When the resolved control mode is thread, an omitted size
    becomes tiny and an omitted window mode becomes trim; a size or a
    window mode that was given is kept. *)
Theorem thread_mode_defaults (b : Bot.Bot) (ev : Bot.messageEvent) (conf : Bot.sessionConfig) :
  Bot.ControlMode (Bot.applySessionConfigDefaults b ev conf) = Bot.Thread →
  (Bot.ConfSize conf = None →
   Bot.ConfSize (Bot.applySessionConfigDefaults b ev conf) = Some Bot.Tiny) ∧
  (Bot.WindowMode conf = "" →
   Bot.WindowMode (Bot.applySessionConfigDefaults b ev conf) = Bot.Trim) ∧
  (∀ sz, Bot.ConfSize conf = Some sz →
   Bot.ConfSize (Bot.applySessionConfigDefaults b ev conf) = Some sz) ∧
  (Bot.WindowMode conf ≠ "" →
   Bot.WindowMode (Bot.applySessionConfigDefaults b ev conf) = Bot.WindowMode conf).
Proof.
  intros Hmode.
  destruct (applySessionConfigDefaults_thread b ev conf Hmode) as [-> ->].
  repeat split.
  - by intros ->.
  - by intros ->.
  - by intros sz ->.
  - intros Hne. destruct (String.eqb_spec (Bot.WindowMode conf) ""); done.
Qed.

Lemma thread_mode_defaults_witness :
  Bot.ControlMode (Bot.applySessionConfigDefaults (Bot.exampleBot Bot.Everyone 0)
                     (Bot.exampleEvent "U1" "@replbot bash thread")
                     Bot.exampleParsed) = Bot.Thread ∧
  Bot.ConfSize (Bot.applySessionConfigDefaults (Bot.exampleBot Bot.Everyone 0)
                  (Bot.exampleEvent "U1" "@replbot bash thread")
                  Bot.exampleParsed) = Some Bot.Tiny ∧
  Bot.WindowMode (Bot.applySessionConfigDefaults (Bot.exampleBot Bot.Everyone 0)
                    (Bot.exampleEvent "U1" "@replbot bash thread")
                    Bot.exampleParsed) = Bot.Trim.
Proof.
  destruct (thread_mode_defaults (Bot.exampleBot Bot.Everyone 0)
              (Bot.exampleEvent "U1" "@replbot bash thread") Bot.exampleParsed)
    as (Hsize & Hwindow & _); [reflexivity|].
  split; [reflexivity|]. split; [apply Hsize | apply Hwindow]; reflexivity.
Defined.

(** Fields that are no size token leave the size as it was. *)
Lemma parseFields_keeps_size (MentionBot : string) (RandomPort : nat → Z + error)
    (b : Bot.Bot) (fields : list string) (i : nat) (conf conf' : Bot.sessionConfig) :
  Forall (λ f, Bot.is_size f = false) fields →
  Bot.parseFields MentionBot RandomPort b i fields conf = inl conf' →
  Bot.ConfSize conf' = Bot.ConfSize conf.
Proof.
  intros Hall. revert i conf.
  induction Hall as [|f fields Hf _ IH]; intros i conf; simpl.
  - by intros [= ->].
  - destruct (Bot.parseField MentionBot RandomPort b i f conf) as [c|e] eqn:Hp; [|done].
    intros Hrest. rewrite (IH _ _ Hrest).
    unfold Bot.parseField in Hp. rewrite Hf in Hp.
    repeat match type of Hp with
           | (if ?c then _ else _) = _ => destruct c
           | match ?c with _ => _ end = _ => destruct c
           end; by simplify_eq.
Qed.

(** Fields that are no window-mode token leave the window mode. *)
Lemma parseFields_keeps_window (MentionBot : string) (RandomPort : nat → Z + error)
    (b : Bot.Bot) (fields : list string) (i : nat) (conf conf' : Bot.sessionConfig) :
  Forall (λ f, Bot.is_window_mode f = false) fields →
  Bot.parseFields MentionBot RandomPort b i fields conf = inl conf' →
  Bot.WindowMode conf' = Bot.WindowMode conf.
Proof.
  intros Hall. revert i conf.
  induction Hall as [|f fields Hf _ IH]; intros i conf; simpl.
  - by intros [= ->].
  - destruct (Bot.parseField MentionBot RandomPort b i f conf) as [c|e] eqn:Hp; [|done].
    intros Hrest. rewrite (IH _ _ Hrest).
    unfold Bot.parseField in Hp. rewrite Hf in Hp.
    repeat match type of Hp with
           | (if ?c then _ else _) = _ => destruct c
           | match ?c with _ => _ end = _ => destruct c
           end; by simplify_eq.
Qed.

(** From the message to the configuration: a trigger message that
    parses, resolves to thread mode and names no size (no window mode)
    gets size tiny (window mode trim). *)
Lemma parseSessionConfig_thread_defaults (MentionBot : string)
    (RandomPort : nat → Z + error) (b : Bot.Bot) (ev : Bot.messageEvent)
    (conf' : Bot.sessionConfig) :
  Bot.parseSessionConfig MentionBot RandomPort b ev = inl conf' →
  Bot.ControlMode conf' = Bot.Thread →
  (Forall (λ f, Bot.is_size f = false) (Bot.Fields (Bot.Message ev)) →
   Bot.ConfSize conf' = Some Bot.Tiny) ∧
  (Forall (λ f, Bot.is_window_mode f = false) (Bot.Fields (Bot.Message ev)) →
   Bot.WindowMode conf' = Bot.Trim).
Proof.
  unfold Bot.parseSessionConfig.
  destruct (Bot.parseFields _ _ _ _ _ _) as [conf|e] eqn:Hp; [|done].
  destruct (String.eqb (Bot.ConfScript conf) ""); [done|].
  intros [= <-] Hmode.
  destruct (applySessionConfigDefaults_thread b ev conf Hmode) as [-> ->].
  split; intros Hall.
  - by rewrite (parseFields_keeps_size _ _ _ _ _ _ _ Hall Hp).
  - by rewrite (parseFields_keeps_window _ _ _ _ _ _ _ Hall Hp).
Qed.

Example Fields_splits_on_white_space :
  Bot.Fields ("  @replbot   bash" +:+ String "009" "thread" +:+ String "010" " ")
  = ["@replbot"; "bash"; "thread"].
Proof. reflexivity. Qed.

Example parse_bash_thread :
  Bot.parseSessionConfig "@replbot" (λ _, inl 40000%Z) (Bot.exampleBot Bot.Everyone 0)
    (Bot.exampleEvent "U1" "@replbot bash thread")
  = inl (Bot.mkSessionConfig "" "U1" None None "/etc/replbot/bash"
           Bot.Thread Bot.Trim Bot.Everyone (Some Bot.Tiny) 0).
Proof. vm_compute. reflexivity. Qed.

Example parse_bash_thread_large_full :
  Bot.parseSessionConfig "@replbot" (λ _, inl 40000%Z) (Bot.exampleBot Bot.Everyone 0)
    (Bot.exampleEvent "U1" "@replbot large bash thread full")
  = inl (Bot.mkSessionConfig "" "U1" None None "/etc/replbot/bash"
           Bot.Thread Bot.Full Bot.Everyone (Some Bot.Large) 0).
Proof. vm_compute. reflexivity. Qed.

(** The registry entry is put back unchanged when the line is dropped. *)
Lemma Bot_eta (b : Bot.Bot) :
  Bot.mkBot (Bot.config b) (Bot.sessions b) (Bot.closedConns b) = b.
Proof. by destruct b. Qed.

(** C1.  With auth mode only-me a line of anybody but the owner leaves
    the bot as it was: nothing is put on the chat-input channel, so the
    input pump writes to the terminal exactly what it would have written
    without the line.  With auth mode everyone the line of any user is
    put on the channel of the active session. *)
Theorem only_me_drops_foreign_lines (Sanitize : string → string)
    (ev : Bot.messageEvent) (b : Bot.Bot) (sess : Bot.session) :
  Bot.sessions b !! Bot.sessionIDOf Sanitize ev = Some sess →
  Bot.active sess = true →
  (Bot.AuthMode (Bot.conf sess) = Bot.OnlyMe →
   Bot.User ev ≠ Bot.ConfUser (Bot.conf sess) →
   Bot.maybeForwardMessage Sanitize ev b = (true, b) ∧
   ∀ env sess',
     Bot.sessions (Bot.maybeForwardMessage Sanitize ev b).2
       !! Bot.sessionIDOf Sanitize ev = Some sess' →
     Bot.pumpWrites env sess' = Bot.pumpWrites env sess) ∧
  (Bot.AuthMode (Bot.conf sess) = Bot.Everyone →
   ∃ sess',
     Bot.sessions (Bot.maybeForwardMessage Sanitize ev b).2
       !! Bot.sessionIDOf Sanitize ev = Some sess' ∧
     Bot.userInputChan sess' = Bot.userInputChan sess ++ [Bot.Message ev]).
Proof.
  intros Hsess Hactive. unfold Bot.maybeForwardMessage. rewrite Hsess, Hactive.
  split.
  - intros Hauth Huser.
    assert (Bot.UserInput (Bot.User ev) (Bot.Message ev) sess = sess) as Hdrop.
    { unfold Bot.UserInput. rewrite Hauth. simpl.
      destruct (String.eqb_spec (Bot.User ev) (Bot.ConfUser (Bot.conf sess))); done. }
    rewrite Hdrop, (insert_id _ _ _ Hsess), Bot_eta.
    split; [done|]. intros env sess'. simpl. rewrite Hsess. by intros [= <-].
  - intros Hauth. eexists. split; [apply lookup_insert_eq|].
    unfold Bot.UserInput. rewrite Hauth. reflexivity.
Qed.

Lemma only_me_drops_foreign_lines_witness :
  Bot.maybeForwardMessage (λ id, id) (Bot.exampleEvent "U2" "rm -rf /")
    (Bot.exampleBot Bot.OnlyMe 0)
  = (true, Bot.exampleBot Bot.OnlyMe 0).
Proof.
  refine (proj1 (proj1 (only_me_drops_foreign_lines (λ id, id)
            (Bot.exampleEvent "U2" "rm -rf /") (Bot.exampleBot Bot.OnlyMe 0)
            (Bot.exampleSession Bot.OnlyMe 0) _ _) _ _)).
  - reflexivity.
  - reflexivity.
  - reflexivity.
  - discriminate.
Defined.

(** The owner's own line goes through in only-me mode and reaches the
    terminal through the router. *)
Example only_me_owner_line_is_pasted :
  ∃ sess',
    Bot.sessions (Bot.maybeForwardMessage (λ id, id) (Bot.exampleEvent "U1" "ls")
                    (Bot.exampleBot Bot.OnlyMe 0)).2 !! "C1_" = Some sess' ∧
    Bot.pumpWrites Repl.reliable sess'
    = [(list_byte_of_string ("ls" +:+ String "010" ""), None)].
Proof. eexists. split; vm_compute; reflexivity. Qed.




(** Scenario 6 of the spec: the relay port is accepted, the next port is
    rejected and its connection closed. *)
Example share_scenario :
  Bot.sshReversePortForwardingCallback Bot.acceptOnce
    (Bot.mkSshContext "C1_" (Some 7)) "localhost" 40000 (Bot.exampleBot Bot.OnlyMe 40000)
  = (true, Bot.mkBot Bot.exampleConfig
             {[ "C1_" := Bot.mkSession (Bot.conf (Bot.exampleSession Bot.OnlyMe 40000))
                            40000 true [] (Some 7) ]} []) ∧
  (Bot.sshReversePortForwardingCallback Bot.acceptOnce
     (Bot.mkSshContext "C1_" (Some 7)) "localhost" 40001
     (Bot.exampleBot Bot.OnlyMe 40000)).1 = false.
Proof. split; vm_compute; reflexivity. Qed.

(** ** The terminal driver (screen.go) *)



Lemma removeFiles_id (s : Screen.Screen) (f : option Screen.file) (os : Screen.OS) :
  Screen.removeFiles (Screen.mkScreen (Screen.id s) f) os = Screen.removeFiles s os.
Proof. reflexivity. Qed.



(** The four files exist before [Stop] in the example. *)
Example started_has_files :
  is_Some (Screen.files Screen.started.2 !! Screen.rcFile Screen.started.1) ∧
  is_Some (Screen.files Screen.started.2 !! Screen.logFile Screen.started.1) ∧
  is_Some (Screen.files Screen.started.2 !! Screen.regFile Screen.started.1) ∧
  is_Some (Screen.files Screen.started.2 !! Screen.hardcopyFile Screen.started.1) ∧
  Screen.Active Screen.reliable Screen.started.1 Screen.started.2 = true.
Proof. vm_compute. repeat split; eauto. Qed.


(** ** The closed flag (part_001, session.go) *)

(** C2 on the prototype.  The output goroutine sets the closed flag when
    the read of the pty ends with [io.EOF], but [replSession] keeps
    receiving lines: the help text is posted after the flag is set. *)
Theorem prototype_posts_after_closed :
  SessionBase.closed (Prototype.run Prototype.reliable Prototype.eofThenHelp
                        Prototype.NewSession) = true ∧
  SessionBase.quietAfterClosed false
    (SessionBase.actions (Prototype.run Prototype.reliable Prototype.eofThenHelp
                            Prototype.NewSession)) = false ∧
  ∃ before,
    SessionBase.actions (Prototype.run Prototype.reliable Prototype.eofThenHelp
                           Prototype.NewSession)
    = before ++ [SessionBase.PostText "REPL exited. Terminating session";
                 SessionBase.SetClosed;
                 SessionBase.PostBlocks availableCommandsMessage].
Proof.
  split; [vm_compute; reflexivity|]. split; [vm_compute; reflexivity|].
  eexists [_; _]. vm_compute. reflexivity.
Qed.

(** The [!exit] path of the prototype closes and returns: nothing is
    posted afterwards, whatever is received next. *)
Example prototype_exit_is_quiet :
  SessionBase.quietAfterClosed false
    (SessionBase.actions
       (Prototype.run Prototype.reliable
          [Prototype.Input "!exit"; Prototype.Input "!help"; Prototype.Input "bash"]
          Prototype.NewSession)) = true.
Proof. vm_compute. reflexivity. Qed.

Section QuietAfterClosed.
Import SessionBase.

Lemma quiet_without_closed (l : list action) :
  SetClosed ∉ l → quietAfterClosed false l = true.
Proof.
  induction l as [|a l IH]; [done|].
  rewrite not_elem_of_cons. intros [Ha Hl].
  destruct a; simpl; rewrite ?IH; done.
Qed.

Lemma quiet_closed_last (l : list action) (message : string) :
  SetClosed ∉ l → quietAfterClosed false (l ++ [PostText message] ++ [SetClosed]) = true.
Proof.
  induction l as [|a l IH]; [done|].
  rewrite not_elem_of_cons. intros [Ha Hl].
  destruct a; simpl in *; rewrite ?IH; done.
Qed.

Context {place : Type}.
Implicit Types s : Session place.

Lemma open_act s a : a ≠ SetClosed → StillOpen s → StillOpen (act a s).
Proof.
  intros Ha [Hc Hn]. split; [done|]. simpl.
  rewrite not_elem_of_app, not_elem_of_cons. split; [done|]. split; [done|].
  apply not_elem_of_nil.
Qed.

Lemma open_goto s (p : place) : StillOpen s → StillOpen (goto p s).
Proof. by intros [Hc Hn]. Qed.

Lemma open_sendMarkdown s m : StillOpen s → StillOpen (sendMarkdown m s).
Proof. by apply open_act. Qed.

Lemma open_sendCode s m : StillOpen s → StillOpen (sendCode m s).
Proof. by apply open_act. Qed.

Lemma open_sayExited s repls : StillOpen s → StillOpen (sayExited repls s).
Proof. by apply open_act. Qed.

Lemma open_sayHello s repls : StillOpen s → StillOpen (sayHello repls s).
Proof. by apply open_act. Qed.

(** [close] on an open session posts its text, sets the flag, and
    leaves the list of actions quiet. *)
Lemma close_quiet s message :
  StillOpen s →
  closed (close message s) = true ∧
  quietAfterClosed false (actions (close message s)) = true.
Proof.
  intros [Hc Hn]. unfold close. rewrite Hc. simpl. split; [done|].
  rewrite <- (assoc_L (++)). by apply quiet_closed_last.
Qed.

End QuietAfterClosed.

Create HintDb session.
#[local] Hint Resolve open_act open_goto open_sendMarkdown open_sendCode
  open_sayExited open_sayHello : session.

Lemma open_afterRepl scripts err (s : SessionBase.Session SessionGo.place) :
  SessionBase.StillOpen s → SessionBase.StillOpen (SessionGo.afterRepl scripts err s).
Proof.
  intros Hs. unfold SessionGo.afterRepl.
  destruct err as [e|]; [destruct (SessionGo.is_errExit e)|]; eauto with session.
Qed.

Lemma open_settle scripts r (s : SessionBase.Session SessionGo.place) :
  SessionBase.StillOpen s → SessionBase.StillOpen (SessionGo.settle scripts r s).
Proof.
  intros Hs. unfold SessionGo.settle.
  destruct (_ || _); eauto using open_afterRepl with session.
Qed.

#[local] Hint Resolve open_afterRepl open_settle : session.

Lemma open_handleUserInput env input (s : SessionBase.Session SessionGo.place) :
  SessionBase.StillOpen s → SessionBase.StillOpen (SessionGo.handleUserInput env input s).2.
Proof.
  intros Hs. unfold SessionGo.handleUserInput.
  repeat case_match; simpl; eauto with session.
Qed.

Lemma step_keeps_QuietInv env scripts ev (s : SessionBase.Session SessionGo.place) :
  SessionGo.QuietInv s → SessionGo.QuietInv (SessionGo.step env scripts ev s).
Proof.
  intros [Hs|[Hfin Hq]]; unfold SessionGo.step.
  2: { rewrite Hfin. by right. }
  destruct (SessionBase.at_ s) as [|r| |reason] eqn:Hat; try by left.
  - destruct ev; try by left.
    unfold SessionGo.userInputLoopStep.
    destruct (String.eqb line exitCommand).
    { right. split; [done|]. simpl. by apply close_quiet. }
    left. repeat case_match; eauto with session.
  - left. destruct ev; case_match; try done.
    + unfold SessionGo.inputStep.
      pose proof (open_handleUserInput env line s Hs) as Hh.
      destruct (SessionGo.handleUserInput env line s) as [[[e|]|reason] s'];
        simpl in *; eauto with session.
    + unfold SessionGo.responseStep.
      repeat case_match; simplify_eq; eauto 10 with session.
    + unfold SessionGo.responseStep. repeat case_match; eauto with session.
    + unfold SessionGo.readerStep. repeat case_match; eauto with session.
    + unfold SessionGo.responseStep. repeat case_match; eauto with session.
    + unfold SessionGo.inputStep. repeat case_match; eauto with session.
Qed.

Lemma run_keeps_QuietInv env scripts events (s : SessionBase.Session SessionGo.place) :
  SessionGo.QuietInv s → SessionGo.QuietInv (SessionGo.run env scripts events s).
Proof.
  revert s. induction events as [|ev events IH]; intros s Hs; [done|].
  simpl. apply IH. by apply step_keeps_QuietInv.
Qed.

(** The revision on an error group (session.go) sets the flag only by
    [!exit] in [userInputLoop], after every goroutine of the REPL has
    returned: on every schedule and with every failure of the chat or of
    the pty, no message is posted after the flag is set. *)
Lemma session_go_quiet_after_closed (env : SessionGo.Env)
    (scripts : gmap string string) (events : list SessionGo.event) :
  SessionBase.quietAfterClosed false
    (SessionBase.actions (SessionGo.run env scripts events (SessionGo.NewSession scripts)))
  = true.
Proof.
  assert (SessionGo.QuietInv (SessionGo.NewSession scripts)) as Hinit.
  { left. apply open_sayHello. split; [done|]. apply not_elem_of_nil. }
  destruct (run_keeps_QuietInv env scripts events _ Hinit) as [[_ Hn]|[_ Hq]]; [|done].
  by apply quiet_without_closed.
Qed.

(** The same schedule as on the prototype: the end of the output ends
    the REPL, and the line [!help] is answered by the open session. *)
Example session_go_eof_then_help :
  SessionBase.closed
    (SessionGo.run SessionGo.reliable Prototype.availableREPLs
       [SessionGo.Input "bash"; SessionGo.ReadResult "" SessionBase.EOF;
        SessionGo.ReaderReturns None; SessionGo.InputSeesDone; SessionGo.Input "!help"]
       (SessionGo.NewSession Prototype.availableREPLs)) = false.
Proof. vm_compute. reflexivity. Qed.

(** * Further properties of the embedded code *)

(** ** The router of repl.go *)

(** X1.  Only [!help] makes the router post to the chat. *)
Theorem handleUserInput_posts_only_help (env : Repl.Env) (input : string) (w : Repl.World) :
  input ≠ helpCommand →
  Repl.sent (Repl.handleUserInput env input w).2 = Repl.sent w.
Proof.
  intros Hne. unfold Repl.handleUserInput.
  destruct (String.eqb_spec input helpCommand); [done|].
  destruct (String.eqb input exitCommand); [done|].
  destruct (String.prefix Repl.commentPrefix input); [done|].
  destruct input as [|c rest]; [done|]. run_M.
  by destruct (controlCharTable !! rest).
Qed.

Lemma handleUserInput_posts_only_help_witness :
  Repl.sent (Repl.handleUserInput Repl.reliable "!ctrl-c" Repl.emptyWorld).2
  = Repl.sent Repl.emptyWorld.
Proof.
  apply (handleUserInput_posts_only_help Repl.reliable "!ctrl-c" Repl.emptyWorld).
  discriminate.
Defined.

(** X2.  The first byte of a line is never looked at: any byte other than
    [#] in front of an alias sends the control byte of the alias. *)
Theorem any_first_byte_selects_alias (env : Repl.Env) (c : ascii) (a : string)
    (b : byte) (w : Repl.World) :
  controlCharTable !! a = Some b →
  c ≠ "#"%char →
  Repl.handleUserInput env (String c a) w = Repl.Write env [b] w.
Proof.
  intros Ha Hc. unfold Repl.handleUserInput.
  assert (String.prefix Repl.commentPrefix (String c a) = false) as ->.
  { change (String.prefix Repl.commentPrefix (String c a))
      with (if ascii_dec "#" c then String.prefix "" a else false).
    destruct (ascii_dec "#" c) as [<-|]; done. }
  destruct (controlCharTable_keys _ _ Ha) as [[-> ->]|[[-> ->]|[[-> ->]|[-> ->]]]];
    simpl; destruct (c =? "!")%char; reflexivity.
Qed.

Lemma any_first_byte_selects_alias_witness :
  Repl.handleUserInput Repl.reliable "xctrl-d" Repl.emptyWorld
  = Repl.Write Repl.reliable [x04] Repl.emptyWorld.
Proof.
  apply (any_first_byte_selects_alias Repl.reliable "x" "ctrl-d" x04 Repl.emptyWorld).
  - reflexivity.
  - discriminate.
Defined.

(** Once the input loop has returned, later events change nothing. *)
Lemma userInputLoop_return_is_final (env : Repl.Env)
    (events later : list Repl.input_event) (w w' : Repl.World) (err : option error) :
  Repl.userInputLoop env events w = (Return (Repl.Returned err), w') →
  Repl.userInputLoop env (events ++ later) w = (Return (Repl.Returned err), w').
Proof.
  revert w. induction events as [|ev events IH]; intros w; [done|].
  destruct ev as [line|]; [|done]. simpl. unfold mbind, Repl.M_bind.
  destruct (Repl.handleUserInput env line w) as [[[e|]|reason] w1]; try done.
  apply IH.
Qed.

Lemma plain_is_pasted (env : Repl.Env) (line : string) (w : Repl.World) :
  ReplFacts.plain line = true →
  Repl.handleUserInput env line w
  = Repl.Write env (list_byte_of_string (sprintf_line line)) w.
Proof.
  unfold ReplFacts.plain, Repl.handleUserInput.
  rewrite !andb_true_iff, !negb_true_iff. intros [[[-> ->] ->] Htail].
  destruct line as [|c rest]; [done|]. run_M.
  apply bool_decide_eq_true in Htail. by rewrite Htail.
Qed.

(** X4.  Plain lines reach the terminal in the order in which they were
    received, each followed by a newline, as long as the writes succeed. *)
Theorem userInputLoop_pastes_in_order (env : Repl.Env) (lines : list string) (w : Repl.World) :
  (∀ n, Repl.writeResult env n = None) →
  Forall (λ line, ReplFacts.plain line = true) lines →
  Repl.userInputLoop env (Repl.Line <$> lines) w
  = (Return Repl.Running,
     Repl.mkWorld (Repl.sent w) (Repl.written w ++ (ReplFacts.pasted <$> lines))).
Proof.
  intros Hok Hall. revert w.
  induction Hall as [|line lines Hline _ IH]; intros w; simpl.
  - rewrite app_nil_r. by destruct w.
  - unfold mbind, Repl.M_bind. rewrite (plain_is_pasted _ _ _ Hline).
    unfold Repl.Write. rewrite Hok, IH. simpl.
    by rewrite <- (assoc_L (++)).
Qed.

Lemma userInputLoop_pastes_in_order_witness :
  Repl.userInputLoop Repl.reliable (Repl.Line <$> ["cd /tmp"; "ls"; "echo !"]) Repl.emptyWorld
  = (Return Repl.Running,
     Repl.mkWorld (Repl.sent Repl.emptyWorld)
       (Repl.written Repl.emptyWorld ++ (ReplFacts.pasted <$> ["cd /tmp"; "ls"; "echo !"]))).
Proof.
  apply (userInputLoop_pastes_in_order Repl.reliable ["cd /tmp"; "ls"; "echo !"]
           Repl.emptyWorld).
  - reflexivity.
  - repeat constructor.
Defined.

(** X3.  [!exit] stops the input loop: the plain lines received before it
    have been pasted, the loop returns [errExit], and no line received
    after it reaches the terminal or the chat. *)
Theorem userInputLoop_stops_at_exit (env : Repl.Env) (before : list string)
    (later : list Repl.input_event) (w : Repl.World) :
  (∀ n, Repl.writeResult env n = None) →
  Forall (λ line, ReplFacts.plain line = true) before →
  Repl.userInputLoop env ((Repl.Line <$> before) ++ Repl.Line exitCommand :: later) w
  = (Return (Repl.Returned (Some errExit)),
     Repl.mkWorld (Repl.sent w) (Repl.written w ++ (ReplFacts.pasted <$> before))).
Proof.
  intros Hok Hall.
  change (Repl.Line exitCommand :: later) with ([Repl.Line exitCommand] ++ later).
  rewrite (assoc_L (++)). apply userInputLoop_return_is_final.
  revert w. induction Hall as [|line before Hline _ IH]; intros w; simpl.
  - rewrite app_nil_r. by destruct w.
  - unfold mbind, Repl.M_bind. rewrite (plain_is_pasted _ _ _ Hline).
    unfold Repl.Write. rewrite Hok, IH. simpl.
    by rewrite <- (assoc_L (++)).
Qed.

Lemma userInputLoop_stops_at_exit_witness :
  Repl.userInputLoop Repl.reliable
    ((Repl.Line <$> ["cd /tmp"; "ls"]) ++ Repl.Line exitCommand :: [Repl.Line "rm -rf /"])
    Repl.emptyWorld
  = (Return (Repl.Returned (Some errExit)),
     Repl.mkWorld (Repl.sent Repl.emptyWorld)
       (Repl.written Repl.emptyWorld ++ (ReplFacts.pasted <$> ["cd /tmp"; "ls"]))).
Proof.
  apply (userInputLoop_stops_at_exit Repl.reliable ["cd /tmp"; "ls"]
           [Repl.Line "rm -rf /"] Repl.emptyWorld).
  - reflexivity.
  - repeat constructor.
Defined.

(** ** The forwarder of repl.go *)

Lemma append_cons (c : ascii) (a b : string) : String c a +:+ b = String c (a +:+ b).
Proof. reflexivity. Qed.

Lemma append_empty_r (a : string) : a +:+ "" = a.
Proof. induction a as [|c a IH]; [done|]. by rewrite append_cons, IH. Qed.

Lemma append_assoc (a b c : string) : (a +:+ b) +:+ c = a +:+ (b +:+ c).
Proof. induction a as [|x a IH]; [done|]. by rewrite !append_cons, IH. Qed.

Lemma flatten_snoc (l : list string) (m : string) :
  ReplFacts.flatten (l ++ [m]) = ReplFacts.flatten l +:+ m.
Proof.
  induction l as [|x l IH]; simpl.
  - apply append_empty_r.
  - by rewrite IH, append_assoc.
Qed.

Lemma texts_snoc (w : Repl.World) a (m : string) (f : Repl.Format) (r : option error) :
  ReplFacts.texts (Repl.mkWorld (Repl.sent w ++ [(m, f, r)]) a)
  = ReplFacts.texts w ++ [m].
Proof. unfold ReplFacts.texts. simpl. by rewrite fmap_app. Qed.

(** With a chat that accepts every send, one iteration other than the
    last moves text from the buffer to the chat and loses none. *)
Lemma forwarderStep_keeps_text (env : Repl.Env) (message : string)
    (ev : Repl.output_event) (w : Repl.World) :
  (∀ n, Repl.sendResult env n = None) →
  ReplFacts.is_done ev = false →
  ∃ message' w',
    Repl.forwarderStep env message ev w = (Return (inl message'), w') ∧
    ReplFacts.flatten (ReplFacts.texts w') +:+ message'
    = ReplFacts.flatten (ReplFacts.texts w) +:+ message +:+ ReplFacts.chunkText ev.
Proof.
  intros Hok Hev. unfold Repl.forwarderStep.
  destruct ev as [result| |]; [| |done]; simpl;
    (match goal with |- context [if ?c then _ else _] => destruct c end);
    run_M; rewrite ?Hok; eexists _, _; (split; [reflexivity|]);
    rewrite ?texts_snoc, ?flatten_snoc, ?append_empty_r; done.
Qed.

(** The loop of the forwarder, from any buffer, with a chat that accepts
    every send. *)
Lemma forwarderLoop_delivers (env : Repl.Env)
    (events : list Repl.output_event) (message : string) (w : Repl.World) :
  (∀ n, Repl.sendResult env n = None) →
  Forall (λ ev, ReplFacts.is_done ev = false) events →
  ∃ w',
    Repl.forwarderLoop env (events ++ [Repl.CtxDone]) message w
    = (Return (Repl.Returned (Some errExit)), w') ∧
    ReplFacts.flatten (ReplFacts.texts w')
    = ReplFacts.flatten (ReplFacts.texts w) +:+ message
      +:+ ReplFacts.flatten (ReplFacts.chunkText <$> events).
Proof.
  intros Hok Hall. revert message w.
  induction Hall as [|ev events Hev _ IH]; intros message w.
  - simpl. unfold mbind, Repl.M_bind, Repl.forwarderStep.
    destruct (Nat.ltb_spec 0 (String.length message)) as [Hlen|Hlen]; run_M.
    + rewrite Hok. eexists. split; [reflexivity|].
      by rewrite texts_snoc, flatten_snoc, append_empty_r.
    + eexists. split; [reflexivity|].
      destruct message; [|simpl in Hlen; lia].
      by rewrite !append_empty_r.
  - destruct (forwarderStep_keeps_text env message ev w Hok Hev)
      as (message' & w1 & Hstep & Htext).
    destruct (IH message' w1) as (w' & Hloop & Hall').
    exists w'. split.
    + simpl. unfold mbind, Repl.M_bind. by rewrite Hstep.
    + rewrite Hall'. simpl.
      rewrite <- (append_assoc (ReplFacts.flatten (ReplFacts.texts w1))), Htext.
      by rewrite !append_assoc.
Qed.

(** X5.  With a chat that accepts every send, the forwarder delivers all the
    output: when the context is done it has posted, in order and without
    loss or repetition, every chunk it received with the escape
    sequences stripped, and it returns [errExit]. *)
Theorem forwarder_delivers_all_output (env : Repl.Env)
    (events : list Repl.output_event) (w : Repl.World) :
  (∀ n, Repl.sendResult env n = None) →
  Forall (λ ev, ReplFacts.is_done ev = false) events →
  ∃ w',
    Repl.commandOutputForwarder env (events ++ [Repl.CtxDone]) w
    = (Return (Repl.Returned (Some errExit)), w') ∧
    ReplFacts.flatten (ReplFacts.texts w')
    = ReplFacts.flatten (ReplFacts.texts w)
      +:+ ReplFacts.flatten (ReplFacts.chunkText <$> events).
Proof.
  intros Hok Hall.
  destruct (forwarderLoop_delivers env events "" w Hok Hall) as (w' & Hloop & Htext).
  exists w'. split; [done|]. by rewrite Htext.
Qed.

Lemma forwarder_delivers_all_output_witness :
  ∃ w',
    Repl.commandOutputForwarder Repl.reliable
      ([Repl.OutChan "$ "; Repl.TimeAfter; Repl.OutChan Repl.fullBuffer;
        Repl.OutChan "x"] ++ [Repl.CtxDone]) Repl.emptyWorld
    = (Return (Repl.Returned (Some errExit)), w') ∧
    ReplFacts.flatten (ReplFacts.texts w')
    = ReplFacts.flatten (ReplFacts.texts Repl.emptyWorld)
      +:+ ReplFacts.flatten
            (ReplFacts.chunkText <$> [Repl.OutChan "$ "; Repl.TimeAfter;
                                      Repl.OutChan Repl.fullBuffer; Repl.OutChan "x"]).
Proof.
  apply (forwarder_delivers_all_output Repl.reliable
           [Repl.OutChan "$ "; Repl.TimeAfter; Repl.OutChan Repl.fullBuffer;
            Repl.OutChan "x"] Repl.emptyWorld).
  - reflexivity.
  - repeat constructor.
Defined.

Lemma posted_nonempty (message m : string) (ev : Repl.output_event) :
  Repl.posted message ev = Some m → m ≠ "".
Proof.
  unfold Repl.posted. destruct ev; simpl;
    (match goal with |- context [if ?c then _ else _] => destruct c eqn:Hc end);
    intros [= <-] Hm; rewrite Hm in Hc; done.
Qed.

(** X6.  The forwarder never posts an empty message, whatever it receives
    and whether the chat accepts the sends or not. *)
Theorem forwarder_never_posts_empty (env : Repl.Env)
    (events : list Repl.output_event) (message : string) (w : Repl.World) :
  ∃ new,
    Repl.sent (Repl.forwarderLoop env events message w).2 = Repl.sent w ++ new ∧
    Forall (λ x, x.1.1 ≠ "") new.
Proof.
  revert message w. induction events as [|ev events IH]; intros message w.
  - exists []. by rewrite app_nil_r.
  - pose proof (forwarderStep_sent env message ev w) as Hsent.
    assert (Forall (λ x : string * Repl.Format * option error, x.1.1 ≠ "")
              match Repl.posted message ev with
              | Some m => [(m, Repl.Code, Repl.sendResult env (length (Repl.sent w)))]
              | None => []
              end) as Hnew.
    { destruct (Repl.posted message ev) as [m|] eqn:Hp; [|done].
      constructor; [|done]. by apply (posted_nonempty message m ev). }
    simpl. unfold mbind, Repl.M_bind.
    destruct (Repl.forwarderStep env message ev w) as [[[message'|err]|reason] w1];
      simpl in *.
    + destruct (IH message' w1) as (new & -> & Hall).
      eexists. rewrite Hsent, <- (assoc_L (++)). split; [done|].
      by apply Forall_app.
    + eexists. by split.
    + eexists. by split.
Qed.

(** ** The escape pattern (session.go:22) *)

Lemma match_escape_starts_with_ESC (c : ascii) (rest : string) (n : nat) :
  match_escape (String c rest) = Some n → c = ReplFacts.ESC.
Proof.
  destruct c as [[] [] [] [] [] [] [] []]; simpl; try discriminate. done.
Qed.

(** X7.  Stripping only removes: the result is never longer than the input,
    and a text without the escape byte comes back unchanged. *)
Theorem strip_escapes_only_removes (s : string) :
  String.length (strip_escapes s) ≤ String.length s ∧
  (ReplFacts.ESC ∉ list_ascii_of_string s → strip_escapes s = s).
Proof.
  split; [apply strip_from_length|].
  unfold strip_escapes. induction s as [|c s IH]; [done|].
  simpl list_ascii_of_string. rewrite not_elem_of_cons. intros [Hc Hs].
  change (strip_from 0 (String c s))
    with (match match_escape (String c s) with
          | Some n => strip_from (pred n) s
          | None => String c (strip_from 0 s)
          end).
  destruct (match_escape (String c s)) as [n|] eqn:Hm.
  - by apply match_escape_starts_with_ESC in Hm.
  - by rewrite IH.
Qed.

Lemma strip_escapes_only_removes_witness :
  strip_escapes "$ ls -l [a-z]*" = "$ ls -l [a-z]*".
Proof.
  apply (proj2 (strip_escapes_only_removes "$ ls -l [a-z]*")).
  vm_compute. intros H. repeat (apply elem_of_cons in H as [H|H]; [discriminate|]).
  by apply elem_of_nil in H.
Defined.

Lemma letter_is_no_param (c : ascii) : is_letter c = true → is_param c = false.
Proof.
  unfold is_letter, is_param.
  destruct (Nat.leb_spec 48 (nat_of_ascii c)), (Nat.leb_spec (nat_of_ascii c) 57),
    (Nat.eqb_spec (nat_of_ascii c) 59), (Nat.leb_spec 97 (nat_of_ascii c)),
    (Nat.leb_spec (nat_of_ascii c) 122), (Nat.leb_spec 65 (nat_of_ascii c)),
    (Nat.leb_spec (nat_of_ascii c) 90); simpl; try done; lia.
Qed.

Lemma match_params_run (params : list ascii) (c : ascii) (rest : string) :
  Forall (λ p, is_param p = true) params →
  is_letter c = true →
  match_params (string_of_list_ascii params +:+ String c rest)
  = Some (S (length params)).
Proof.
  intros Hall Hc. induction Hall as [|p params Hp _ IH]; simpl.
  - change ("" +:+ String c rest) with (String c rest). simpl.
    by rewrite (letter_is_no_param c Hc), Hc.
  - by rewrite Hp, IH.
Qed.

Lemma strip_from_skips (pre : list ascii) (rest : string) :
  strip_from (length pre) (string_of_list_ascii pre +:+ rest) = strip_from 0 rest.
Proof.
  induction pre as [|p pre IH]; simpl; [by destruct rest|].
  apply IH.
Qed.

(** X8.  A complete escape sequence (ESC, [[], parameter bytes, one letter)
    in front of a text is removed, whatever follows it. *)
Theorem strip_escapes_removes_sequence (params : list ascii) (c : ascii) (rest : string) :
  Forall (λ p, is_param p = true) params →
  is_letter c = true →
  strip_escapes (String ReplFacts.ESC (String "[" (string_of_list_ascii params
                                                    +:+ String c rest)))
  = strip_escapes rest.
Proof.
  intros Hall Hc. unfold strip_escapes.
  change (strip_from 0 (String ReplFacts.ESC ?s))
    with (match match_escape (String ReplFacts.ESC s) with
          | Some n => strip_from (pred n) s
          | None => String ReplFacts.ESC (strip_from 0 s)
          end).
  unfold match_escape, ReplFacts.ESC. rewrite (match_params_run _ _ _ Hall Hc).
  cbn [fmap option_fmap option_map pred Nat.add].
  change (strip_from (S (S (length params))) (String "[" ?s))
    with (strip_from (S (length params)) s).
  rewrite <- (strip_from_skips (params ++ [c]) rest).
  rewrite length_app, Nat.add_1_r. f_equal. clear Hall.
  induction params as [|p params IH]; [done|].
  change (String p (string_of_list_ascii params +:+ String c rest)
          = String p (string_of_list_ascii (params ++ [c]) +:+ rest)).
  by rewrite IH.
Qed.

Lemma strip_escapes_removes_sequence_witness :
  strip_escapes (String ReplFacts.ESC (String "[" (string_of_list_ascii
                   ["1"; ";"; "3"; "2"]%char +:+ String "m" "ok")))
  = strip_escapes "ok".
Proof.
  apply (strip_escapes_removes_sequence ["1"; ";"; "3"; "2"]%char "m" "ok").
  - repeat constructor.
  - reflexivity.
Defined.

(** ** The terminal driver (screen.go), from start to stop *)

Lemma append_inj_l (a b c : string) : a +:+ b = a +:+ c → b = c.
Proof.
  induction a as [|x a IH]; [done|]. rewrite !append_cons. intros [= H]. auto.
Qed.

Lemma logFile_ne_rcFile (s : Screen.Screen) : Screen.logFile s ≠ Screen.rcFile s.
Proof.
  unfold Screen.logFile, Screen.rcFile. intros H.
  by apply append_inj_l, append_inj_l in H.
Qed.

Lemma Start_success_state_aux (env : Screen.Env) (args : list string)
    (s s' : Screen.Screen) (os os' : Screen.OS) :
  Screen.Start env args s os = (None, s', os') →
  s' = Screen.mkScreen (Screen.id s) (Some (Screen.OpenFile (Screen.logFile s))) ∧
  Screen.files os'
  = <[Screen.rcFile s := Screen.rcBytes s]> (<[Screen.logFile s := ""]> (Screen.files os)) ∧
  Screen.screens os' = <[Screen.id s := ""]> (Screen.screens os).
Proof.
  unfold Screen.Start, Screen.WriteFile, Screen.Open. simpl.
  destruct (Screen.writeFileErr env (Screen.logFile s)); [done|]. simpl.
  destruct (Screen.openErr env (Screen.logFile s)); [done|].
  rewrite lookup_insert_eq.
  change (Screen.rcFile (Screen.mkScreen (Screen.id s) _)) with (Screen.rcFile s).
  destruct (Screen.writeFileErr env (Screen.rcFile s)); [done|]. simpl.
  destruct (Screen.runErr env _); [done|].
  by intros [= <- <-].
Qed.

(** X9.  A start that reports no error leaves an empty log file, the rc file
    that names it, the log file open in the handle and a session under
    the handle's id; nothing else is changed. *)
Theorem Start_success_state (env : Screen.Env) (args : list string)
    (s s' : Screen.Screen) (os os' : Screen.OS) :
  Screen.Start env args s os = (None, s', os') →
  s' = Screen.mkScreen (Screen.id s) (Some (Screen.OpenFile (Screen.logFile s))) ∧
  Screen.files os' !! Screen.logFile s = Some "" ∧
  Screen.files os'
  = <[Screen.rcFile s := Screen.rcBytes s]> (<[Screen.logFile s := ""]> (Screen.files os)) ∧
  Screen.screens os' = <[Screen.id s := ""]> (Screen.screens os).
Proof.
  intros Hstart.
  destruct (Start_success_state_aux env args s s' os os' Hstart) as (-> & Hf & Hs).
  split_and!; try done.
  rewrite Hf, lookup_insert_ne; [apply lookup_insert_eq|].
  intros H. by apply (logFile_ne_rcFile s).
Qed.

Lemma Start_success_state_witness :
  Screen.files (Screen.Start Screen.reliable ["bash"] Screen.exampleScreen Screen.emptyOS).2
    !! Screen.logFile Screen.exampleScreen = Some "".
Proof.
  apply (Start_success_state Screen.reliable ["bash"] Screen.exampleScreen
           (Screen.Start Screen.reliable ["bash"] Screen.exampleScreen Screen.emptyOS).1.2
           Screen.emptyOS
           (Screen.Start Screen.reliable ["bash"] Screen.exampleScreen Screen.emptyOS).2).
  reflexivity.
Defined.

(** X10.  A start that reports an error has created no session. *)
Theorem Start_failure_starts_no_session (env : Screen.Env) (args : list string)
    (s : Screen.Screen) (os : Screen.OS) :
  (Screen.Start env args s os).1.1 ≠ None →
  Screen.screens (Screen.Start env args s os).2 = Screen.screens os.
Proof.
  unfold Screen.Start, Screen.WriteFile, Screen.Open. simpl.
  destruct (Screen.writeFileErr env (Screen.logFile s)); [done|]. simpl.
  destruct (Screen.openErr env (Screen.logFile s)); [done|].
  rewrite lookup_insert_eq.
  change (Screen.rcFile (Screen.mkScreen (Screen.id s) _)) with (Screen.rcFile s).
  destruct (Screen.writeFileErr env (Screen.rcFile s)); [done|]. simpl.
  by destruct (Screen.runErr env _).
Qed.

Lemma Start_failure_starts_no_session_witness :
  Screen.screens
    (Screen.Start (Screen.mkEnv (λ _, None) (λ _, None) (λ _, Some (errOther "exit status 1")))
       ["bash"] Screen.exampleScreen Screen.emptyOS).2
  = Screen.screens Screen.emptyOS.
Proof.
  apply (Start_failure_starts_no_session
           (Screen.mkEnv (λ _, None) (λ _, None) (λ _, Some (errOther "exit status 1")))
           ["bash"] Screen.exampleScreen Screen.emptyOS).
  discriminate.
Defined.

(** X11.  [Stop] on a handle that was never started returns an error: the
    log file of the handle is nil. *)
Theorem Stop_unstarted_returns_error (env : Screen.Env) (s : Screen.Screen) (os : Screen.OS) :
  Screen.log s = None →
  (Screen.Stop env s os).1.1 ≠ None.
Proof.
  intros Hlog. unfold Screen.Stop.
  destruct (Screen.Active env s os); [destruct (Screen.runOn env s _ os)|];
    rewrite ?Hlog; simpl; done.
Qed.

Lemma Stop_unstarted_returns_error_witness :
  (Screen.Stop Screen.reliable Screen.exampleScreen Screen.emptyOS).1.1 ≠ None.
Proof.
  apply (Stop_unstarted_returns_error Screen.reliable Screen.exampleScreen Screen.emptyOS).
  reflexivity.
Defined.

Lemma removeFiles_screens (s : Screen.Screen) (os : Screen.OS) :
  Screen.screens (Screen.removeFiles s os) = Screen.screens os.
Proof. done. Qed.

(** X12.  A [Stop] that returned no error after its probe had found the
    session active has ended the session: whatever the [screen] binary
    answers later, [Active] reports false.  When the probe had failed,
    [Stop] has not asked the session to quit: it returns no error with
    the sessions as they were. *)
Theorem Stop_ok_after_active_probe_ends_session (env later : Screen.Env)
    (s s' : Screen.Screen) (os os' : Screen.OS) :
  Screen.Stop env s os = (None, s', os') →
  (Screen.Active env s os = true → Screen.Active later s' os' = false) ∧
  (Screen.Active env s os = false → Screen.screens os' = Screen.screens os).
Proof.
  unfold Screen.Stop. destruct (Screen.Active env s os) eqn:Hactive.
  - destruct (Screen.runOn env s ["-X"; "quit"] os); [done|].
    destruct (Screen.Close (Screen.log s)) as [err f]. intros [= -> <- <-].
    split; [intros _|done].
    unfold Screen.Active, Screen.runOn. rewrite removeFiles_screens. simpl.
    by rewrite lookup_delete_eq.
  - destruct (Screen.Close (Screen.log s)) as [err f]. intros [= -> <- <-].
    split; [done|intros _]. by rewrite removeFiles_screens.
Qed.

Lemma Stop_ok_after_active_probe_ends_session_witness :
  Screen.Active Screen.reliable
    (Screen.Stop Screen.reliable Screen.started.1 Screen.started.2).1.2
    (Screen.Stop Screen.reliable Screen.started.1 Screen.started.2).2 = false.
Proof.
  apply (Stop_ok_after_active_probe_ends_session Screen.reliable Screen.reliable
           Screen.started.1 _ Screen.started.2 _); reflexivity.
Defined.

(** X13.  [Stop] touches nothing but the four files and the session of its
    own handle. *)
Theorem Stop_touches_only_its_own (env : Screen.Env) (s : Screen.Screen) (os : Screen.OS)
    (path name : string) :
  path ∉ [Screen.rcFile s; Screen.logFile s; Screen.regFile s; Screen.hardcopyFile s] →
  name ≠ Screen.id s →
  Screen.files (Screen.Stop env s os).2 !! path = Screen.files os !! path ∧
  Screen.screens (Screen.Stop env s os).2 !! name = Screen.screens os !! name.
Proof.
  rewrite !not_elem_of_cons. intros (Hrc & Hlog & Hreg & Hhard & _) Hname.
  destruct s as [i l].
  assert (∀ f os0, Screen.files (Screen.removeFiles (Screen.mkScreen i f) os0) !! path
                   = Screen.files os0 !! path) as Hfiles.
  { intros f os0. unfold Screen.removeFiles, Screen.Remove. simpl.
    by rewrite !lookup_delete_ne. }
  unfold Screen.Stop.
  destruct (Screen.Active env _ os); [destruct (Screen.runOn env _ _ os)|];
    try destruct (Screen.Close _) as [err f]; simpl in *;
    rewrite Hfiles; simpl; rewrite ?lookup_delete_ne; done.
Qed.

Lemma Stop_touches_only_its_own_witness :
  Screen.files (Screen.Stop Screen.reliable Screen.exampleScreen
                  (Screen.mkOS {[ "/etc/passwd" := "root" ]} {[ "replbot.other" := "$ " ]})).2
    !! "/etc/passwd"
  = Screen.files (Screen.mkOS {[ "/etc/passwd" := "root" ]} {[ "replbot.other" := "$ " ]}) !! "/etc/passwd" ∧
  Screen.screens (Screen.Stop Screen.reliable Screen.exampleScreen
                  (Screen.mkOS {[ "/etc/passwd" := "root" ]} {[ "replbot.other" := "$ " ]})).2
    !! "replbot.other"
  = Screen.screens (Screen.mkOS {[ "/etc/passwd" := "root" ]} {[ "replbot.other" := "$ " ]}) !! "replbot.other".
Proof.
  apply (Stop_touches_only_its_own Screen.reliable Screen.exampleScreen
           (Screen.mkOS {[ "/etc/passwd" := "root" ]} {[ "replbot.other" := "$ " ]})
           "/etc/passwd" "replbot.other").
  - intros H. repeat (apply elem_of_cons in H as [H|H]; [discriminate|]).
    by apply elem_of_nil in H.
  - discriminate.
Defined.

(** X14.  A session that is started and then stopped, with a [screen] that
    obeys, leaves the system as it was. *)
Theorem Start_then_Stop_restores (env : Screen.Env) (args : list string)
    (s s1 : Screen.Screen) (os os1 : Screen.OS) :
  Forall (λ path, Screen.files os !! path = None)
         [Screen.rcFile s; Screen.logFile s; Screen.regFile s; Screen.hardcopyFile s] →
  Screen.screens os !! Screen.id s = None →
  Screen.runErr env ["-S"; Screen.id s; "-Q"; "select"; "."] = None →
  Screen.runErr env ["-S"; Screen.id s; "-X"; "quit"] = None →
  Screen.Start env args s os = (None, s1, os1) →
  Screen.Stop env s1 os1
  = (None, Screen.mkScreen (Screen.id s) (Some (Screen.ClosedFile (Screen.logFile s))), os).
Proof.
  intros Hfiles Hscreen Hselect Hquit Hstart.
  apply Forall_cons in Hfiles as [Hrc Hfiles].
  apply Forall_cons in Hfiles as [Hlog Hfiles].
  apply Forall_cons in Hfiles as [Hreg Hfiles].
  apply Forall_cons in Hfiles as [Hhard _].
  destruct (Start_success_state_aux env args s s1 os os1 Hstart) as (-> & Hf & Hs).
  unfold Screen.Stop, Screen.Active, Screen.runOn. simpl.
  rewrite Hs, lookup_insert_eq. simpl. rewrite Hselect, Hquit. simpl.
  f_equal. destruct os as [files screens]. simpl in *.
  unfold Screen.removeFiles, Screen.Remove. simpl. f_equal.
  - rewrite Hf. apply map_eq. intros k.
    rewrite !lookup_delete, !lookup_insert.
    repeat case_decide; simplify_eq; done.
  - by apply delete_insert_id.
Qed.

Lemma Start_then_Stop_restores_witness :
  Screen.Stop Screen.reliable
    (Screen.Start Screen.reliable ["bash"] Screen.exampleScreen Screen.emptyOS).1.2
    (Screen.Start Screen.reliable ["bash"] Screen.exampleScreen Screen.emptyOS).2
  = (None,
     Screen.mkScreen (Screen.id Screen.exampleScreen)
       (Some (Screen.ClosedFile (Screen.logFile Screen.exampleScreen))),
     Screen.emptyOS).
Proof.
  apply (Start_then_Stop_restores Screen.reliable ["bash"] Screen.exampleScreen
           (Screen.Start Screen.reliable ["bash"] Screen.exampleScreen Screen.emptyOS).1.2
           Screen.emptyOS
           (Screen.Start Screen.reliable ["bash"] Screen.exampleScreen Screen.emptyOS).2).
  - repeat constructor.
  - reflexivity.
  - reflexivity.
  - reflexivity.
  - reflexivity.
Defined.

(** ** The dispatcher (bot.go), from a message to a session *)

(** X15.  A message touches no session but the one of its own chat, and a
    message that is not forwarded changes nothing at all. *)
Theorem maybeForwardMessage_touches_only_addressed (Sanitize : string → string)
    (ev : Bot.messageEvent) (b : Bot.Bot) (id : string) :
  id ≠ Bot.sessionIDOf Sanitize ev →
  Bot.sessions (Bot.maybeForwardMessage Sanitize ev b).2 !! id = Bot.sessions b !! id ∧
  ((Bot.maybeForwardMessage Sanitize ev b).1 = false →
   (Bot.maybeForwardMessage Sanitize ev b).2 = b).
Proof.
  intros Hid. unfold Bot.maybeForwardMessage.
  destruct (Bot.sessions b !! Bot.sessionIDOf Sanitize ev) as [sess|]; [|done].
  destruct (Bot.active sess); [|done]. simpl.
  split; [|done]. by rewrite lookup_insert_ne.
Qed.

Lemma maybeForwardMessage_touches_only_addressed_witness :
  Bot.sessions (Bot.maybeForwardMessage id (Bot.exampleEvent "U2" "ls")
                  (Bot.exampleBot Bot.Everyone 0)).2 !! "C2_"
  = Bot.sessions (Bot.exampleBot Bot.Everyone 0) !! "C2_" ∧
  ((Bot.maybeForwardMessage id (Bot.exampleEvent "U2" "ls")
      (Bot.exampleBot Bot.Everyone 0)).1 = false →
   (Bot.maybeForwardMessage id (Bot.exampleEvent "U2" "ls")
      (Bot.exampleBot Bot.Everyone 0)).2 = Bot.exampleBot Bot.Everyone 0).
Proof.
  apply (maybeForwardMessage_touches_only_addressed id (Bot.exampleEvent "U2" "ls")
           (Bot.exampleBot Bot.Everyone 0) "C2_").
  discriminate.
Defined.

Ltac parse_cases Hp :=
  unfold Bot.parseField in Hp;
  repeat match type of Hp with
         | (if ?c then _ else _) = _ => destruct c eqn:?
         | match ?c with _ => _ end = _ => destruct c eqn:?
         end; simplify_eq; simpl in *.

Lemma Script_nonempty (c : Bot.Config) (name : string) :
  negb (String.eqb (Bot.Script c name) "") = true →
  Bot.scripts c !! name = Some (Bot.Script c name).
Proof.
  unfold Bot.Script. by destruct (Bot.scripts c !! name).
Qed.

(** The owner and the script of the configuration while the fields of
    a message are read. *)
Lemma parseFields_script (MentionBot : string) (RandomPort : nat → Z + error)
    (b : Bot.Bot) (fields : list string) (i : nat) (conf conf' : Bot.sessionConfig) :
  Bot.parseFields MentionBot RandomPort b i fields conf = inl conf' →
  Bot.ConfUser conf' = Bot.ConfUser conf ∧
  (Bot.ConfScript conf' = Bot.ConfScript conf ∨
   (Bot.ShareEnabled (Bot.config b) = true ∧ Bot.shareCommand ∈ fields ∧
    Bot.ConfScript conf' = Bot.shareServerScriptFile) ∨
   ∃ name, name ∈ fields ∧ Bot.scripts (Bot.config b) !! name = Some (Bot.ConfScript conf')).
Proof.
  revert i conf. induction fields as [|f fields IH]; intros i conf; simpl.
  - intros [= ->]. auto.
  - destruct (Bot.parseField MentionBot RandomPort b i f conf) as [c|e] eqn:Hp; [|done].
    intros Hrest. destruct (IH _ _ Hrest) as [Huser Hscript].
    assert (Bot.ConfUser c = Bot.ConfUser conf ∧
            (Bot.ConfScript c = Bot.ConfScript conf ∨
             (Bot.ShareEnabled (Bot.config b) = true ∧ f = Bot.shareCommand ∧
              Bot.ConfScript c = Bot.shareServerScriptFile) ∨
             Bot.scripts (Bot.config b) !! f = Some (Bot.ConfScript c))) as [Hu Hs].
    { parse_cases Hp; split; auto.
      - right. left.
        match goal with H : _ && _ = true |- _ =>
          apply andb_true_iff in H as [? ?%String.eqb_eq] end. auto.
      - right. right.
        match goal with H : _ && negb _ = true |- _ =>
          apply andb_true_iff in H as [_ ?] end. by apply Script_nonempty. }
    split; [congruence|].
    destruct Hscript as [Heq|[(Hen & Hin & Heq)|(name & Hin & Hname)]].
    + destruct Hs as [Hs|[(Hen & -> & Hs)|Hs]].
      * left. congruence.
      * right. left. split_and!; [done|apply elem_of_cons; auto|congruence].
      * right. right. exists f. split; [apply elem_of_cons; auto|congruence].
    + right. left. split_and!; [done|apply elem_of_cons; auto|done].
    + right. right. exists name. split; [apply elem_of_cons; auto|done].
Qed.

(** X16.  A configuration that was parsed belongs to the author of the
    message and names a script that is not empty: the script of the
    share server, if sharing is enabled and the message says [share],
    or else a script of the bot's configuration named in the message. *)
Theorem parsed_session_runs_configured_script (MentionBot : string)
    (RandomPort : nat → Z + error) (b : Bot.Bot) (ev : Bot.messageEvent)
    (conf : Bot.sessionConfig) :
  Bot.parseSessionConfig MentionBot RandomPort b ev = inl conf →
  Bot.ConfUser conf = Bot.User ev ∧
  Bot.ConfScript conf ≠ "" ∧
  ((Bot.ShareEnabled (Bot.config b) = true ∧ Bot.shareCommand ∈ Bot.Fields (Bot.Message ev) ∧
    Bot.ConfScript conf = Bot.shareServerScriptFile) ∨
   ∃ name, name ∈ Bot.Fields (Bot.Message ev) ∧
           Bot.scripts (Bot.config b) !! name = Some (Bot.ConfScript conf)).
Proof.
  unfold Bot.parseSessionConfig.
  destruct (Bot.parseFields _ _ _ _ _ _) as [c|e] eqn:Hp; [|done].
  destruct (String.eqb_spec (Bot.ConfScript c) "") as [|Hne]; [done|].
  intros [= <-]. simpl.
  destruct (parseFields_script _ _ _ _ _ _ _ Hp) as [Hu [Hs|Hs]]; simpl in *.
  - done.
  - done.
Qed.

Lemma parsed_session_runs_configured_script_witness :
  Bot.ConfUser (Bot.mkSessionConfig "" "U1" None None "/etc/replbot/bash"
                  Bot.Thread Bot.Trim Bot.Everyone (Some Bot.Tiny) 0) = "U1" ∧
  Bot.ConfScript (Bot.mkSessionConfig "" "U1" None None "/etc/replbot/bash"
                    Bot.Thread Bot.Trim Bot.Everyone (Some Bot.Tiny) 0) ≠ "" ∧
  ((Bot.ShareEnabled (Bot.config (Bot.exampleBot Bot.Everyone 0)) = true ∧
    Bot.shareCommand ∈ Bot.Fields "@replbot bash thread" ∧
    Bot.ConfScript (Bot.mkSessionConfig "" "U1" None None "/etc/replbot/bash"
                      Bot.Thread Bot.Trim Bot.Everyone (Some Bot.Tiny) 0)
    = Bot.shareServerScriptFile) ∨
   ∃ name, name ∈ Bot.Fields "@replbot bash thread" ∧
           Bot.scripts (Bot.config (Bot.exampleBot Bot.Everyone 0)) !! name
           = Some (Bot.ConfScript (Bot.mkSessionConfig "" "U1" None None "/etc/replbot/bash"
                                     Bot.Thread Bot.Trim Bot.Everyone (Some Bot.Tiny) 0))).
Proof.
  apply (parsed_session_runs_configured_script "@replbot" (λ _, inl 40000%Z)
           (Bot.exampleBot Bot.Everyone 0) (Bot.exampleEvent "U1" "@replbot bash thread")).
  reflexivity.
Defined.

(** The auth mode and the script while the fields of a message without
    an auth token are read: [seen] tells whether [share] was among the
    fields read so far. *)
Lemma parseFields_share (MentionBot : string) (RandomPort : nat → Z + error)
    (b : Bot.Bot) (fields : list string) (i : nat) (conf conf' : Bot.sessionConfig)
    (seen : bool) :
  Bot.ShareEnabled (Bot.config b) = true →
  MentionBot ≠ Bot.shareCommand →
  Forall (λ f, Bot.is_auth_mode f = false) fields →
  Bot.AuthMode conf = (if seen then Bot.OnlyMe else "") →
  (seen = true → Bot.ConfScript conf = Bot.shareServerScriptFile) →
  Bot.parseFields MentionBot RandomPort b i fields conf = inl conf' →
  Bot.AuthMode conf'
  = (if seen || bool_decide (Bot.shareCommand ∈ fields) then Bot.OnlyMe else "") ∧
  (seen || bool_decide (Bot.shareCommand ∈ fields) = true →
   Bot.ConfScript conf' = Bot.shareServerScriptFile).
Proof.
  intros Hen Hme Hall. revert i conf seen.
  induction Hall as [|f fields Hf _ IH]; intros i conf seen Hauth Hscript.
  - simpl. intros [= <-]. by rewrite orb_false_r.
  - cbn [Bot.parseFields].
    destruct (Bot.parseField MentionBot RandomPort b i f conf) as [c|e] eqn:Hp; [|done].
    intros Hrest.
    assert (Bot.AuthMode c
            = (if seen || bool_decide (f = Bot.shareCommand) then Bot.OnlyMe else "") ∧
            (seen || bool_decide (f = Bot.shareCommand) = true →
             Bot.ConfScript c = Bot.shareServerScriptFile)) as [Hauth' Hscript'].
    { destruct (decide (f = Bot.shareCommand)) as [->|Hne].
      - rewrite bool_decide_eq_true_2, orb_true_r by done.
        unfold Bot.parseField in Hp. rewrite Hen in Hp.
        destruct (String.eqb_spec Bot.shareCommand MentionBot); [done|].
        simpl in Hp. destruct (RandomPort i); [|done]. simplify_eq. simpl.
        rewrite Hauth. by destruct seen.
      - rewrite bool_decide_eq_false_2, orb_false_r by done.
        unfold Bot.parseField in Hp. rewrite Hf, Hen in Hp.
        destruct (String.eqb_spec f Bot.shareCommand); [done|]. simpl in Hp.
        repeat match type of Hp with
               | (if ?c then _ else _) = _ => destruct c eqn:?
               end; simplify_eq; simpl; try done.
        split; [done|]. intros ->.
        match goal with H : _ && negb _ = true |- _ =>
          apply andb_true_iff in H as [H _]; rewrite Hscript in H by done end.
        done. }
    destruct (IH _ _ _ Hauth' Hscript' Hrest) as [Ha Hs].
    assert (seen || bool_decide (Bot.shareCommand ∈ f :: fields)
            = seen || bool_decide (f = Bot.shareCommand)
              || bool_decide (Bot.shareCommand ∈ fields)) as ->; [|done].
    rewrite <- orb_assoc. f_equal.
    destruct (decide (f = Bot.shareCommand)) as [->|Hne].
    + rewrite (bool_decide_eq_true_2 (_ ∈ _ :: _)) by (apply elem_of_cons; auto).
      by rewrite (bool_decide_eq_true_2 (_ = _)).
    + rewrite (bool_decide_eq_false_2 (f = _)) by done. simpl.
      apply bool_decide_ext. rewrite elem_of_cons.
      split; intros H; first [ by right | destruct H as [Heq|H]; [by destruct Hne|done] ].
Qed.

(** X17.  A message that says [share] and names no auth mode gives a session
    that runs the script of the share server and takes input from its
    owner only, whatever the default auth mode of the bot is. *)
Theorem share_session_is_only_me (MentionBot : string) (RandomPort : nat → Z + error)
    (b : Bot.Bot) (ev : Bot.messageEvent) (conf : Bot.sessionConfig) :
  Bot.ShareEnabled (Bot.config b) = true →
  MentionBot ≠ Bot.shareCommand →
  Bot.shareCommand ∈ Bot.Fields (Bot.Message ev) →
  Forall (λ f, Bot.is_auth_mode f = false) (Bot.Fields (Bot.Message ev)) →
  Bot.parseSessionConfig MentionBot RandomPort b ev = inl conf →
  Bot.AuthMode conf = Bot.OnlyMe ∧ Bot.ConfScript conf = Bot.shareServerScriptFile.
Proof.
  intros Hen Hme Hin Hall. unfold Bot.parseSessionConfig.
  destruct (Bot.parseFields _ _ _ _ _ _) as [c|e] eqn:Hp; [|done].
  destruct (String.eqb (Bot.ConfScript c) ""); [done|]. intros [= <-].
  apply (parseFields_share _ _ _ _ _ _ _ false Hen Hme Hall) in Hp as [Ha Hs];
    [|done..].
  rewrite bool_decide_eq_true_2 in Ha, Hs by done. simpl in *.
  split; [|by apply Hs]. by rewrite Ha.
Qed.

Lemma share_session_is_only_me_witness :
  Bot.AuthMode (Bot.mkSessionConfig "" "U1" None None Bot.shareServerScriptFile
                  Bot.Channel Bot.Full Bot.OnlyMe (Some Bot.Small) 40000)
  = Bot.OnlyMe ∧
  Bot.ConfScript (Bot.mkSessionConfig "" "U1" None None Bot.shareServerScriptFile
                    Bot.Channel Bot.Full Bot.OnlyMe (Some Bot.Small) 40000)
  = Bot.shareServerScriptFile.
Proof.
  apply (share_session_is_only_me "@replbot" (λ _, inl 40000%Z)
           (Bot.exampleBot Bot.Everyone 0) (Bot.exampleEvent "U1" "@replbot share")).
  - reflexivity.
  - discriminate.
  - vm_compute. apply elem_of_cons. right. apply elem_of_cons. by left.
  - repeat constructor.
  - reflexivity.
Defined.

(** X18.  On Discord a session asked for in a direct message runs in channel
    mode, whatever mode the message or the configuration names. *)
Theorem discord_dm_runs_in_channel_mode (MentionBot : string)
    (RandomPort : nat → Z + error) (b : Bot.Bot) (ev : Bot.messageEvent)
    (conf : Bot.sessionConfig) :
  Bot.platform (Bot.config b) = Bot.Discord →
  Bot.ChannelType ev = Bot.channelTypeDM →
  Bot.parseSessionConfig MentionBot RandomPort b ev = inl conf →
  Bot.ControlMode conf = Bot.Channel.
Proof.
  intros Hplatform Hdm. unfold Bot.parseSessionConfig.
  destruct (Bot.parseFields _ _ _ _ _ _) as [c|e]; [|done].
  destruct (String.eqb (Bot.ConfScript c) ""); [done|]. intros [= <-].
  unfold Bot.applySessionConfigDefaults. rewrite Hplatform, Hdm. simpl.
  match goal with |- (if negb (String.eqb ?m _) then _ else _) = _ =>
    destruct (String.eqb_spec m Bot.Channel) end; done.
Qed.

Lemma discord_dm_runs_in_channel_mode_witness :
  Bot.ControlMode (Bot.mkSessionConfig "" "U1" None None "/etc/replbot/bash"
                     Bot.Channel Bot.Full Bot.Everyone (Some Bot.Small) 0)
  = Bot.Channel.
Proof.
  apply (discord_dm_runs_in_channel_mode "@replbot" (λ _, inl 40000%Z)
           (Bot.mkBot (Bot.mkConfig Bot.Discord Bot.Thread Bot.Full Bot.Everyone
                         (Some Bot.Small) {[ "bash" := "/etc/replbot/bash" ]} true) ∅ [])
           (Bot.mkMessageEvent "1" "D1" Bot.channelTypeDM "" "U1" "bash thread")).
  - reflexivity.
  - reflexivity.
  - reflexivity.
Defined.

Lemma maybeForwardMessage_not_forwarded (Sanitize : string → string)
    (ev : Bot.messageEvent) (b b0 : Bot.Bot) :
  Bot.maybeForwardMessage Sanitize ev b = (false, b0) → b0 = b.
Proof.
  unfold Bot.maybeForwardMessage.
  destruct (Bot.sessions b !! Bot.sessionIDOf Sanitize ev) as [sess|]; [|congruence].
  destruct (Bot.active sess); congruence.
Qed.

(** What [handleMessageEvent] has done when it has started a session. *)
Lemma handleMessageEvent_started (Sanitize : string → string) (MentionBot : string)
    (RandomPort : nat → Z + error) (newSession : Bot.sessionConfig → Bot.session)
    (ev : Bot.messageEvent) (b b' : Bot.Bot) (conf : Bot.sessionConfig) :
  Dispatch.handleMessageEvent Sanitize MentionBot RandomPort newSession ev b
  = (Dispatch.Started conf, b') →
  Bot.maybeForwardMessage Sanitize ev b = (false, b) ∧
  Bot.ChannelType ev ≠ Bot.channelTypeUnknown ∧
  (Bot.ChannelType ev = Bot.channelTypeChannel →
   Dispatch.Contains (Bot.Message ev) MentionBot = true) ∧
  (∃ parsed control terminal,
     Bot.parseSessionConfig MentionBot RandomPort b ev = inl parsed ∧
     Bot.ChatChannel control = Bot.EvChannel ev ∧
     conf = Dispatch.placed
              (Sanitize (Bot.ChatChannel control +:+ "_" +:+ Bot.ChatThread control))
              control terminal parsed) ∧
  b' = Bot.mkBot (Bot.config b) (<[Bot.ConfID conf := newSession conf]> (Bot.sessions b))
                 (Bot.closedConns b).
Proof.
  unfold Dispatch.handleMessageEvent.
  destruct (Bot.maybeForwardMessage Sanitize ev b) as [[] b0] eqn:Hforward; [done|].
  apply maybeForwardMessage_not_forwarded in Hforward as Hsame. subst b0.
  destruct (bool_decide_reflect (Bot.ChannelType ev = Bot.channelTypeUnknown)); [done|].
  destruct (bool_decide_reflect (Bot.ChannelType ev = Bot.channelTypeChannel)) as [Hch|Hch];
    simpl.
  - destruct (Dispatch.Contains (Bot.Message ev) MentionBot) eqn:Hmention; [simpl|done].
    destruct (Bot.parseSessionConfig MentionBot RandomPort b ev) as [parsed|e]; [|done].
    unfold Dispatch.startSessionChannel, Dispatch.startSessionThread,
      Dispatch.startSessionSplit, Dispatch.startSession.
    repeat case_match; intros [= <- <-]; split_and!; try done;
      eexists parsed, (Bot.mkChatID _ _), _; split_and!; done.
  - destruct (Bot.parseSessionConfig MentionBot RandomPort b ev) as [parsed|e]; [|done].
    unfold Dispatch.startSessionChannel, Dispatch.startSessionThread,
      Dispatch.startSessionSplit, Dispatch.startSession.
    repeat case_match; intros [= <- <-]; split_and!; try done;
      eexists parsed, (Bot.mkChatID _ _), _; split_and!; done.
Qed.

(** X19.  A session that was started hears its control chat: while it is
    registered and active, the next message in that chat is handed to
    it and to no other; once it has ended, the message is not forwarded
    any more. *)
Theorem started_session_hears_its_control_chat (Sanitize : string → string)
    (MentionBot : string) (RandomPort : nat → Z + error)
    (newSession : Bot.sessionConfig → Bot.session)
    (ev next : Bot.messageEvent) (b b' : Bot.Bot) (conf : Bot.sessionConfig) :
  Dispatch.handleMessageEvent Sanitize MentionBot RandomPort newSession ev b
  = (Dispatch.Started conf, b') →
  Bot.active (newSession conf) = true →
  Bot.Control conf = Some (Bot.mkChatID (Bot.EvChannel next) (Bot.EvThread next)) →
  Bot.maybeForwardMessage Sanitize next b'
  = (true,
     Bot.mkBot (Bot.config b')
       (<[Bot.ConfID conf := Bot.UserInput (Bot.User next) (Bot.Message next) (newSession conf)]>
          (Bot.sessions b'))
       (Bot.closedConns b')) ∧
  (Bot.maybeForwardMessage Sanitize next (Dispatch.sessionEnds conf b')).1 = false.
Proof.
  intros Hstart Hactive Hcontrol.
  destruct (handleMessageEvent_started _ _ _ _ _ _ _ _ Hstart)
    as (_ & _ & _ & (parsed & control & terminal & _ & _ & Hconf) & ->).
  assert (Bot.sessionIDOf Sanitize next = Bot.ConfID conf) as Hid.
  { rewrite Hconf in Hcontrol |- *. simpl in *. by simplify_eq. }
  unfold Bot.maybeForwardMessage, Dispatch.sessionEnds. rewrite Hid. simpl.
  by rewrite lookup_insert_eq, Hactive, lookup_delete_eq.
Qed.

Lemma started_session_hears_its_control_chat_witness :
  Bot.maybeForwardMessage id
    (Bot.mkMessageEvent "18" "C1" Bot.channelTypeChannel "17" "U2" "ls")
    (Dispatch.handleMessageEvent id "@replbot" Dispatch.noPort Dispatch.freshSession
       (Dispatch.askBash "split") Dispatch.quietBot).2
  = (true,
     Bot.mkBot
       (Bot.config (Dispatch.handleMessageEvent id "@replbot" Dispatch.noPort
                      Dispatch.freshSession (Dispatch.askBash "split") Dispatch.quietBot).2)
       (<[Bot.ConfID
            (Dispatch.placed "C1_17" (Bot.mkChatID "C1" "17") (Bot.mkChatID "C1" "")
               (Bot.mkSessionConfig "" "U1" None None "/etc/replbot/bash" Bot.Split Bot.Full
                  Bot.Everyone (Some Bot.Small) 0))
          := Bot.UserInput "U2" "ls"
               (Dispatch.freshSession
                  (Dispatch.placed "C1_17" (Bot.mkChatID "C1" "17") (Bot.mkChatID "C1" "")
                     (Bot.mkSessionConfig "" "U1" None None "/etc/replbot/bash" Bot.Split
                        Bot.Full Bot.Everyone (Some Bot.Small) 0)))]>
          (Bot.sessions (Dispatch.handleMessageEvent id "@replbot" Dispatch.noPort
                           Dispatch.freshSession (Dispatch.askBash "split")
                           Dispatch.quietBot).2))
       (Bot.closedConns (Dispatch.handleMessageEvent id "@replbot" Dispatch.noPort
                           Dispatch.freshSession (Dispatch.askBash "split")
                           Dispatch.quietBot).2)) ∧
  (Bot.maybeForwardMessage id
     (Bot.mkMessageEvent "18" "C1" Bot.channelTypeChannel "17" "U2" "ls")
     (Dispatch.sessionEnds
        (Dispatch.placed "C1_17" (Bot.mkChatID "C1" "17") (Bot.mkChatID "C1" "")
           (Bot.mkSessionConfig "" "U1" None None "/etc/replbot/bash" Bot.Split Bot.Full
              Bot.Everyone (Some Bot.Small) 0))
        (Dispatch.handleMessageEvent id "@replbot" Dispatch.noPort Dispatch.freshSession
           (Dispatch.askBash "split") Dispatch.quietBot).2)).1 = false.
Proof.
  apply (started_session_hears_its_control_chat id "@replbot" Dispatch.noPort
           Dispatch.freshSession (Dispatch.askBash "split")
           (Bot.mkMessageEvent "18" "C1" Bot.channelTypeChannel "17" "U2" "ls")
           Dispatch.quietBot).
  - reflexivity.
  - reflexivity.
  - reflexivity.
Defined.

(** X20.  A session is started only by a message that is addressed to the
    bot: in a channel the message mentions the bot, anywhere the kind of
    the chat is known and no active session sits in the chat; the
    session belongs to the author of the message. *)
Theorem session_starts_only_when_addressed (Sanitize : string → string)
    (MentionBot : string) (RandomPort : nat → Z + error)
    (newSession : Bot.sessionConfig → Bot.session)
    (ev : Bot.messageEvent) (b b' : Bot.Bot) (conf : Bot.sessionConfig) :
  Dispatch.handleMessageEvent Sanitize MentionBot RandomPort newSession ev b
  = (Dispatch.Started conf, b') →
  Bot.ChannelType ev ≠ Bot.channelTypeUnknown ∧
  (Bot.ChannelType ev = Bot.channelTypeChannel →
   Dispatch.Contains (Bot.Message ev) MentionBot = true) ∧
  (∀ sess, Bot.sessions b !! Bot.sessionIDOf Sanitize ev = Some sess →
           Bot.active sess = false) ∧
  Bot.ConfUser conf = Bot.User ev.
Proof.
  intros Hstart.
  destruct (handleMessageEvent_started _ _ _ _ _ _ _ _ Hstart)
    as (Hforward & Hknown & Hmention & (parsed & control & terminal & Hp & _ & ->) & _).
  split_and!; try done.
  - intros sess Hsess. unfold Bot.maybeForwardMessage in Hforward.
    rewrite Hsess in Hforward. by destruct (Bot.active sess).
  - simpl. unfold Bot.parseSessionConfig in Hp.
    destruct (Bot.parseFields _ _ _ _ _ _) as [c|e] eqn:Hfields; [|done].
    destruct (String.eqb (Bot.ConfScript c) ""); [done|]. simplify_eq. simpl.
    by destruct (parseFields_script _ _ _ _ _ _ _ Hfields) as [-> _].
Qed.

Lemma session_starts_only_when_addressed_witness :
  Bot.ChannelType (Dispatch.askBash "thread") ≠ Bot.channelTypeUnknown ∧
  (Bot.ChannelType (Dispatch.askBash "thread") = Bot.channelTypeChannel →
   Dispatch.Contains (Bot.Message (Dispatch.askBash "thread")) "@replbot" = true) ∧
  (∀ sess, Bot.sessions Dispatch.quietBot !! Bot.sessionIDOf id (Dispatch.askBash "thread")
           = Some sess → Bot.active sess = false) ∧
  Bot.ConfUser
    (Dispatch.placed "C1_17" (Bot.mkChatID "C1" "17") (Bot.mkChatID "C1" "17")
       (Bot.mkSessionConfig "" "U1" None None "/etc/replbot/bash" Bot.Thread Bot.Trim
          Bot.Everyone (Some Bot.Tiny) 0))
  = Bot.User (Dispatch.askBash "thread").
Proof.
  apply (session_starts_only_when_addressed id "@replbot" Dispatch.noPort
           Dispatch.freshSession (Dispatch.askBash "thread") Dispatch.quietBot
           (Dispatch.handleMessageEvent id "@replbot" Dispatch.noPort Dispatch.freshSession
              (Dispatch.askBash "thread") Dispatch.quietBot).2).
  reflexivity.
Defined.

(** The control mode while the fields of a message are read: none yet,
    or one of the three. *)
Lemma parseFields_control (MentionBot : string) (RandomPort : nat → Z + error)
    (b : Bot.Bot) (fields : list string) (i : nat) (conf conf' : Bot.sessionConfig) :
  Bot.parseFields MentionBot RandomPort b i fields conf = inl conf' →
  Bot.ControlMode conf = "" ∨ Bot.is_control_mode (Bot.ControlMode conf) = true →
  Bot.ControlMode conf' = "" ∨ Bot.is_control_mode (Bot.ControlMode conf') = true.
Proof.
  revert i conf. induction fields as [|f fields IH]; intros i conf; simpl.
  - by intros [= ->].
  - destruct (Bot.parseField MentionBot RandomPort b i f conf) as [c|e] eqn:Hp; [|done].
    intros Hrest Hmode. apply (IH _ _ Hrest).
    parse_cases Hp; auto.
Qed.

(** X21.  With a default control mode that is one of the three, the
    dispatcher never returns the error of an unexpected mode, whatever
    the message says. *)
Theorem valid_default_mode_is_never_unexpected (Sanitize : string → string)
    (MentionBot : string) (RandomPort : nat → Z + error)
    (newSession : Bot.sessionConfig → Bot.session)
    (ev : Bot.messageEvent) (b : Bot.Bot) (mode : string) :
  Bot.is_control_mode (Bot.DefaultControlMode (Bot.config b)) = true →
  (Dispatch.handleMessageEvent Sanitize MentionBot RandomPort newSession ev b).1
  ≠ Dispatch.UnexpectedMode mode.
Proof.
  intros Hdefault. unfold Dispatch.handleMessageEvent.
  destruct (Bot.maybeForwardMessage Sanitize ev b) as [[] b0] eqn:Hforward; [done|].
  apply maybeForwardMessage_not_forwarded in Hforward as ->.
  destruct (bool_decide _); [done|]. destruct (_ && _); [done|].
  destruct (Bot.parseSessionConfig MentionBot RandomPort b ev) as [conf|e] eqn:Hp; [|done].
  assert (Bot.is_control_mode (Bot.ControlMode conf) = true) as Hmode.
  { unfold Bot.parseSessionConfig in Hp.
    destruct (Bot.parseFields _ _ _ _ _ _) as [c|e] eqn:Hfields; [|done].
    destruct (String.eqb (Bot.ConfScript c) ""); [done|]. simplify_eq.
    apply parseFields_control in Hfields; [|by left].
    unfold Bot.applySessionConfigDefaults. simpl.
    assert (Bot.is_control_mode
              (if String.eqb (Bot.ControlMode c) "" then
                 if negb (String.eqb (Bot.EvThread ev) "") then Bot.Thread
                 else Bot.DefaultControlMode (Bot.config b)
               else Bot.ControlMode c) = true) as Hcm.
    { destruct (String.eqb_spec (Bot.ControlMode c) "") as [Hempty|Hset].
      - by destruct (negb _).
      - by destruct Hfields. }
    destruct (Bot.platform (Bot.config b)), (Bot.ChannelType ev); try done.
    match goal with |- context [negb (String.eqb ?m Bot.Channel)] =>
      destruct (String.eqb m Bot.Channel) end; done. }
  unfold Bot.is_control_mode in Hmode.
  unfold Dispatch.startSessionChannel, Dispatch.startSessionThread,
    Dispatch.startSessionSplit, Dispatch.startSession.
  destruct (String.eqb (Bot.ControlMode conf) Bot.Channel),
    (String.eqb (Bot.ControlMode conf) Bot.Thread),
    (String.eqb (Bot.ControlMode conf) Bot.Split); try done; by case_match.
Qed.

Lemma valid_default_mode_is_never_unexpected_witness :
  (Dispatch.handleMessageEvent id "@replbot" Dispatch.noPort Dispatch.freshSession
     (Dispatch.askBash "") Dispatch.quietBot).1
  ≠ Dispatch.UnexpectedMode "".
Proof.
  apply (valid_default_mode_is_never_unexpected id "@replbot" Dispatch.noPort
           Dispatch.freshSession (Dispatch.askBash "") Dispatch.quietBot "").
  reflexivity.
Defined.

(** X22.  A message changes at most two entries of the registry, the one of
    its own chat and the one of a session it starts; the configuration
    of the bot and the closed connections stay as they are. *)
Theorem handleMessageEvent_keeps_other_sessions (Sanitize : string → string)
    (MentionBot : string) (RandomPort : nat → Z + error)
    (newSession : Bot.sessionConfig → Bot.session)
    (ev : Bot.messageEvent) (b : Bot.Bot) (id : string) :
  id ≠ Bot.sessionIDOf Sanitize ev →
  (∀ conf, (Dispatch.handleMessageEvent Sanitize MentionBot RandomPort newSession ev b).1
           = Dispatch.Started conf → id ≠ Bot.ConfID conf) →
  Bot.sessions (Dispatch.handleMessageEvent Sanitize MentionBot RandomPort newSession ev b).2
    !! id = Bot.sessions b !! id ∧
  Bot.config (Dispatch.handleMessageEvent Sanitize MentionBot RandomPort newSession ev b).2
  = Bot.config b ∧
  Bot.closedConns (Dispatch.handleMessageEvent Sanitize MentionBot RandomPort newSession ev b).2
  = Bot.closedConns b.
Proof.
  intros Hown.
  destruct (Dispatch.handleMessageEvent Sanitize MentionBot RandomPort newSession ev b)
    as [[| |target err|conf|mode] b'] eqn:Hhandle; simpl; intros Hstarted.
  5: { unfold Dispatch.handleMessageEvent in Hhandle.
       destruct (Bot.maybeForwardMessage Sanitize ev b) as [[] b0] eqn:Hforward; [done|].
       apply maybeForwardMessage_not_forwarded in Hforward as ->.
       unfold Dispatch.startSessionChannel, Dispatch.startSessionThread,
         Dispatch.startSessionSplit, Dispatch.startSession in Hhandle.
       repeat case_match; by simplify_eq. }
  4: { destruct (handleMessageEvent_started _ _ _ _ _ _ _ _ Hhandle) as (_ & _ & _ & _ & ->).
       simpl. rewrite lookup_insert_ne; [done|]. intros Heq. by apply (Hstarted conf). }
  all: unfold Dispatch.handleMessageEvent in Hhandle;
    unfold Bot.maybeForwardMessage in Hhandle;
    unfold Dispatch.startSessionChannel, Dispatch.startSessionThread,
      Dispatch.startSessionSplit, Dispatch.startSession in Hhandle;
    repeat case_match; simplify_eq; simpl; rewrite ?lookup_insert_ne; done.
Qed.

Lemma handleMessageEvent_keeps_other_sessions_witness :
  Bot.sessions (Dispatch.handleMessageEvent id "@replbot" Dispatch.noPort
                  Dispatch.freshSession (Bot.exampleEvent "U2" "ls")
                  (Bot.exampleBot Bot.Everyone 0)).2 !! "C2_"
  = Bot.sessions (Bot.exampleBot Bot.Everyone 0) !! "C2_" ∧
  Bot.config (Dispatch.handleMessageEvent id "@replbot" Dispatch.noPort
                Dispatch.freshSession (Bot.exampleEvent "U2" "ls")
                (Bot.exampleBot Bot.Everyone 0)).2
  = Bot.config (Bot.exampleBot Bot.Everyone 0) ∧
  Bot.closedConns (Dispatch.handleMessageEvent id "@replbot" Dispatch.noPort
                     Dispatch.freshSession (Bot.exampleEvent "U2" "ls")
                     (Bot.exampleBot Bot.Everyone 0)).2
  = Bot.closedConns (Bot.exampleBot Bot.Everyone 0).
Proof.
  apply (handleMessageEvent_keeps_other_sessions id "@replbot" Dispatch.noPort
           Dispatch.freshSession (Bot.exampleEvent "U2" "ls")
           (Bot.exampleBot Bot.Everyone 0) "C2_").
  - discriminate.
  - intros conf. discriminate.
Defined.

(** ** The reader of the terminal and the forwarder (repl.go) *)

Lemma flatten_cons (x : string) (l : list string) :
  ReplFacts.flatten (x :: l) = x +:+ ReplFacts.flatten l.
Proof. done. Qed.

Lemma chunkText_received (events : list Repl.output_event) :
  ReplFacts.flatten (ReplFacts.chunkText <$> events)
  = ReplFacts.flatten (strip_escapes <$> OutputLoop.received events).
Proof.
  induction events as [|ev events IH]; [done|].
  rewrite fmap_cons, flatten_cons, IH. by destruct ev.
Qed.

Lemma clean_readStep (TrimSpace : string → string) (exitMarker : string)
    (r : OutputLoop.read) :
  OutputLoop.clean TrimSpace exitMarker r = true →
  OutputLoop.readStep TrimSpace exitMarker r
  = (if (0 <? String.length (OutputLoop.bytes r))%nat
     then Some (OutputLoop.bytes r) else None, None).
Proof.
  unfold OutputLoop.clean, OutputLoop.readStep.
  rewrite !andb_true_iff, !negb_true_iff. intros [[[Herr ->] ->] ->].
  destruct (OutputLoop.readErr r); try done. by destruct (0 <? _)%nat.
Qed.

Lemma clean_loop (TrimSpace : string → string) (exitMarker : string)
    (reads : list OutputLoop.read) :
  Forall (λ r, OutputLoop.clean TrimSpace exitMarker r = true) reads →
  OutputLoop.commandOutputLoop TrimSpace exitMarker reads
  = (filter (λ c, c ≠ "") (OutputLoop.bytes <$> reads), Repl.Running).
Proof.
  induction 1 as [|r reads Hr _ IH]; [done|].
  cbn [OutputLoop.commandOutputLoop]. rewrite (clean_readStep _ _ _ Hr), IH.
  rewrite fmap_cons, filter_cons.
  by destruct (OutputLoop.bytes r).
Qed.

Lemma flatten_strip_nonempty (chunks : list string) :
  ReplFacts.flatten (strip_escapes <$> filter (λ c, c ≠ "") chunks)
  = ReplFacts.flatten (strip_escapes <$> chunks).
Proof.
  induction chunks as [|c chunks IH]; [done|].
  rewrite filter_cons. destruct (decide (c ≠ "")) as [Hc|Hc].
  - by rewrite !fmap_cons, !flatten_cons, IH.
  - apply dec_stable in Hc as ->. by rewrite IH.
Qed.

(** X23.  From the terminal to the chat: when every read gives output and the
    chat accepts every send, the forwarder that receives what the
    reader has sent on the channel posts, in order, the bytes of every
    read with the escape sequences of each read stripped. *)
Theorem terminal_output_reaches_chat (env : Repl.Env) (TrimSpace : string → string)
    (exitMarker : string) (reads : list OutputLoop.read)
    (events : list Repl.output_event) (w : Repl.World) :
  (∀ n, Repl.sendResult env n = None) →
  Forall (λ r, OutputLoop.clean TrimSpace exitMarker r = true) reads →
  OutputLoop.received events
  = (OutputLoop.commandOutputLoop TrimSpace exitMarker reads).1 →
  Forall (λ ev, ReplFacts.is_done ev = false) events →
  ∃ w',
    Repl.commandOutputForwarder env (events ++ [Repl.CtxDone]) w
    = (Return (Repl.Returned (Some errExit)), w') ∧
    ReplFacts.flatten (ReplFacts.texts w')
    = ReplFacts.flatten (ReplFacts.texts w)
      +:+ ReplFacts.flatten ((λ r, strip_escapes (OutputLoop.bytes r)) <$> reads).
Proof.
  intros Hok Hclean Hreceived Hall.
  destruct (forwarderLoop_delivers env events "" w Hok Hall) as (w' & Hloop & Htext).
  exists w'. split; [done|]. rewrite Htext. simpl.
  rewrite chunkText_received, Hreceived, (clean_loop _ _ _ Hclean). simpl.
  by rewrite flatten_strip_nonempty, <- list_fmap_compose.
Qed.

Lemma terminal_output_reaches_chat_witness :
  ∃ w',
    Repl.commandOutputForwarder Repl.reliable
      ([Repl.OutChan "$ "; Repl.TimeAfter; Repl.OutChan "ls"] ++ [Repl.CtxDone])
      Repl.emptyWorld
    = (Return (Repl.Returned (Some errExit)), w') ∧
    ReplFacts.flatten (ReplFacts.texts w')
    = ReplFacts.flatten (ReplFacts.texts Repl.emptyWorld)
      +:+ ReplFacts.flatten ((λ r, strip_escapes (OutputLoop.bytes r))
                               <$> OutputLoop.exampleReads).
Proof.
  apply (terminal_output_reaches_chat Repl.reliable OutputLoop.noTrim "marker"
           OutputLoop.exampleReads
           [Repl.OutChan "$ "; Repl.TimeAfter; Repl.OutChan "ls"] Repl.emptyWorld).
  - reflexivity.
  - repeat constructor.
  - reflexivity.
  - repeat constructor.
Defined.

(** X24.  The reader stops at the exit marker: a read that is the marker, up
    to white space around it, ends the loop with [errExit]; the marker
    is not sent on, and nothing that is read later is. *)
Theorem output_loop_stops_at_exit_marker (TrimSpace : string → string)
    (exitMarker : string) (before later : list OutputLoop.read) (r : OutputLoop.read) :
  Forall (λ r, OutputLoop.clean TrimSpace exitMarker r = true) before →
  OutputLoop.readErr r = OutputLoop.ReadOk →
  OutputLoop.doneBefore r = false →
  TrimSpace (OutputLoop.bytes r) = exitMarker →
  OutputLoop.commandOutputLoop TrimSpace exitMarker (before ++ r :: later)
  = (filter (λ c, c ≠ "") (OutputLoop.bytes <$> before), Repl.Returned (Some errExit)).
Proof.
  intros Hclean Herr Hdone Hmarker.
  induction Hclean as [|r0 before Hr0 _ IH].
  - simpl. unfold OutputLoop.readStep. by rewrite Hdone, Herr, Hmarker, String.eqb_refl.
  - rewrite <- app_comm_cons. cbn [OutputLoop.commandOutputLoop].
    rewrite (clean_readStep _ _ _ Hr0), IH, fmap_cons, filter_cons.
    by destruct (OutputLoop.bytes r0).
Qed.

Lemma output_loop_stops_at_exit_marker_witness :
  OutputLoop.commandOutputLoop OutputLoop.noTrim "marker"
    (OutputLoop.exampleReads
     ++ OutputLoop.mkRead "marker" OutputLoop.ReadOk false true
        :: [OutputLoop.mkRead "$ " OutputLoop.ReadOk false true])
  = (filter (λ c, c ≠ "") (OutputLoop.bytes <$> OutputLoop.exampleReads),
     Repl.Returned (Some errExit)).
Proof.
  apply (output_loop_stops_at_exit_marker OutputLoop.noTrim "marker"
           OutputLoop.exampleReads [OutputLoop.mkRead "$ " OutputLoop.ReadOk false true]
           (OutputLoop.mkRead "marker" OutputLoop.ReadOk false true)).
  - repeat constructor.
  - reflexivity.
  - reflexivity.
  - reflexivity.
Defined.

(** X25.  Whatever is read and whenever the context is done, the reader sends
    no empty chunk on the channel, and it never returns a nil error. *)
Theorem output_loop_sends_no_empty_chunk (TrimSpace : string → string)
    (exitMarker : string) (reads : list OutputLoop.read) :
  Forall (λ c, c ≠ "") (OutputLoop.commandOutputLoop TrimSpace exitMarker reads).1 ∧
  (OutputLoop.commandOutputLoop TrimSpace exitMarker reads).2 ≠ Repl.Returned None.
Proof.
  induction reads as [|r reads [IHchunks IHstatus]]; [done|].
  cbn [OutputLoop.commandOutputLoop].
  assert (∀ c, (OutputLoop.readStep TrimSpace exitMarker r).1 = Some c → c ≠ "") as Hstep.
  { intros c. unfold OutputLoop.readStep.
    repeat case_match; simpl; try done; intros [= <-] Hempty;
      match goal with H : context [String.length _] |- _ => rewrite Hempty in H end;
      done. }
  destruct (OutputLoop.readStep TrimSpace exitMarker r) as [[c|] [err|]]; simpl in *;
    destruct (OutputLoop.commandOutputLoop TrimSpace exitMarker reads) as [chunks st];
    simpl in *; split; try done; constructor; auto.
Qed.

(** ** The connection used for testing (conn_mem.go) *)

Lemma sendAll_snoc (zero : Bot.channelType) (sends : list (Bot.chatID * string))
    (s : Bot.chatID * string) (c : MemConn.memConn) :
  MemConn.sendAll zero (sends ++ [s]) c
  = MemConn.mkMemConn
      (<[MemConn.Itoa (S (MemConn.currentID (MemConn.sendAll zero sends c))) :=
           MemConn.stored zero
             (MemConn.Itoa (S (MemConn.currentID (MemConn.sendAll zero sends c)))) s.1 s.2]>
         (MemConn.messages (MemConn.sendAll zero sends c)))
      (S (MemConn.currentID (MemConn.sendAll zero sends c))).
Proof. unfold MemConn.sendAll. by rewrite foldl_app. Qed.

(** After a list of sends the ids in use are the numbers from 1 to the
    number of sends. *)
Lemma sendAll_ids (zero : Bot.channelType) (sends : list (Bot.chatID * string)) :
  MemConn.currentID (MemConn.sendAll zero sends MemConn.newMemConn) = length sends ∧
  ∀ id, is_Some (MemConn.messages (MemConn.sendAll zero sends MemConn.newMemConn) !! id) →
        ∃ k, id = MemConn.Itoa k ∧ 1 ≤ k ≤ length sends.
Proof.
  induction sends as [|s sends [IHid IHkeys]] using rev_ind.
  - split; [done|]. intros id [m Hm].
    change ((∅ : gmap string Bot.messageEvent) !! id = Some m) in Hm.
    by rewrite lookup_empty in Hm.
  - rewrite sendAll_snoc, length_app, IHid.
    cbn [MemConn.currentID MemConn.messages length].
    split; [lia|]. intros id.
    rewrite lookup_insert. case_decide as Hid.
    + intros _. exists (S (length sends)). split; [done|lia].
    + intros Hsome. destruct (IHkeys id Hsome) as (k & -> & Hk). exists k. split; [done|lia].
Qed.

(** X26.  The connection keeps every message that was sent: after a list of
    sends the message of the i-th send is found under the number i,
    counted from 1, with its text and its target. *)
Theorem memConn_keeps_sent_messages (zero : Bot.channelType)
    (sends : list (Bot.chatID * string)) (i : nat) (target : Bot.chatID) (message : string) :
  sends !! i = Some (target, message) →
  MemConn.Message (MemConn.Itoa (S i)) (MemConn.sendAll zero sends MemConn.newMemConn)
  = Some (MemConn.stored zero (MemConn.Itoa (S i)) target message).
Proof.
  revert i. induction sends as [|s sends IH] using rev_ind; intros i; [done|].
  intros Hi. unfold MemConn.Message in *. rewrite sendAll_snoc.
  destruct (sendAll_ids zero sends) as [Hid _].
  rewrite Hid. cbn [MemConn.messages]. rewrite lookup_insert.
  destruct (decide (i = length sends)) as [->|Hne].
  - rewrite list_lookup_middle in Hi by done. simplify_eq. by rewrite decide_True.
  - rewrite decide_False.
    + apply IH. rewrite lookup_app_l in Hi; [done|].
      apply lookup_lt_Some in Hi. rewrite length_app in Hi. simpl in Hi. lia.
    + intros Heq. apply (inj pretty) in Heq. lia.
Qed.

Lemma memConn_keeps_sent_messages_witness :
  MemConn.Message (MemConn.Itoa 2)
    (MemConn.sendAll Bot.channelTypeUnknown MemConn.exampleSends MemConn.newMemConn)
  = Some (MemConn.stored Bot.channelTypeUnknown (MemConn.Itoa 2) (Bot.mkChatID "C1" "17") "two").
Proof.
  apply (memConn_keeps_sent_messages Bot.channelTypeUnknown MemConn.exampleSends 1
           (Bot.mkChatID "C1" "17") "two").
  reflexivity.
Defined.

(** X27.  After any list of sends, [SendWithID] returns an id that was not in
    use, and the message is found under that id. *)
Theorem memConn_SendWithID_is_fresh (zero : Bot.channelType)
    (sends : list (Bot.chatID * string)) (target : Bot.chatID) (message : string) :
  MemConn.Message
    (MemConn.SendWithID zero target message
       (MemConn.sendAll zero sends MemConn.newMemConn)).1.1
    (MemConn.sendAll zero sends MemConn.newMemConn) = None ∧
  MemConn.Message
    (MemConn.SendWithID zero target message
       (MemConn.sendAll zero sends MemConn.newMemConn)).1.1
    (MemConn.SendWithID zero target message
       (MemConn.sendAll zero sends MemConn.newMemConn)).2
  = Some (MemConn.stored zero
            (MemConn.SendWithID zero target message
               (MemConn.sendAll zero sends MemConn.newMemConn)).1.1
            target message).
Proof.
  simpl. destruct (sendAll_ids zero sends) as [Hid Hkeys].
  unfold MemConn.Message. simpl. rewrite Hid, lookup_insert_eq. split_and!; try done.
  apply eq_None_not_Some. intros Hsome.
  destruct (Hkeys _ Hsome) as (k & Heq & Hk). apply (inj pretty) in Heq. lia.
Qed.

(** ** The first dispatcher (part_000) *)

(** X28.  With fewer than two scripts in the configuration, the answer to a
    direct message that names no script is a panic: [handleHelp] reads
    the second script. *)
Theorem old_help_needs_two_scripts {Session : Type}
    (NewSession : string → string → string → string → string → Session)
    (Active : Session → bool) (HandleUserInput : string → Session → Session)
    (Script : string → string) (Scripts : list string)
    (DefaultMode ModeThread ModeChannel ModeSplit : string)
    (StringContains : list string → string → bool) (sendResult : nat → option error)
    (ev : OldBot.MessageEvent) (b : OldBot.Bot Session) :
  length Scripts < 2 →
  OldBot.User ev ≠ "" →
  String.prefix "D" (OldBot.Channel ev) = true →
  OldBot.sessions b !! OldBot.sessionIDOf (OldBot.Channel ev) (OldBot.ThreadTimestamp ev)
  = None →
  Forall (λ f, Script f = "") (Bot.Fields (OldBot.Text ev)) →
  ∃ reason,
    OldBot.handleMessageEvent NewSession Active HandleUserInput Script Scripts
      DefaultMode ModeThread ModeChannel ModeSplit StringContains sendResult ev b
    = (Panic reason, b).
Proof.
  intros Hfew Huser Hdm Hnone Hnoscript. unfold OldBot.handleMessageEvent.
  destruct (String.eqb_spec (OldBot.User ev) ""); [done|]. rewrite Hdm.
  unfold OldBot.handleDirectMessageEvent, OldBot.maybeForwardMessage. rewrite Hnone.
  unfold OldBot.parseMessage.
  assert (OldBot.firstScript Script (Bot.Fields (OldBot.Text ev)) = "") as ->.
  { induction Hnoscript as [|f fields Hf _ IH]; [done|]. simpl. by rewrite Hf. }
  simpl. unfold OldBot.handleHelp.
  rewrite (lookup_ge_None_2 Scripts 1) by lia. by eexists.
Qed.

Lemma old_help_needs_two_scripts_witness :
  ∃ reason,
    OldBot.handleMessageEvent (λ id _ _ _ _, id) (λ _, true) (λ _ s, s)
      OldBot.oneScript ["bash"] "channel" "thread" "channel" "split" OldBot.contains
      (λ _, None) OldBot.hello OldBot.emptyBot
    = (Panic reason, OldBot.emptyBot).
Proof.
  apply (old_help_needs_two_scripts (λ id _ _ _ _, id) (λ _, true) (λ _ s, s)
           OldBot.oneScript ["bash"] "channel" "thread" "channel" "split" OldBot.contains
           (λ _, None) OldBot.hello OldBot.emptyBot).
  - simpl. lia.
  - discriminate.
  - reflexivity.
  - reflexivity.
  - repeat constructor.
Defined.

(** X29.  A message touches only sessions of its own channel: every entry of
    the registry whose id does not begin with the channel of the message
    and a colon stays as it was. *)
Theorem old_message_touches_only_its_channel {Session : Type}
    (NewSession : string → string → string → string → string → Session)
    (Active : Session → bool) (HandleUserInput : string → Session → Session)
    (Script : string → string) (Scripts : list string)
    (DefaultMode ModeThread ModeChannel ModeSplit : string)
    (StringContains : list string → string → bool) (sendResult : nat → option error)
    (ev : OldBot.MessageEvent) (b : OldBot.Bot Session) (id : string) :
  (∀ ts, id ≠ OldBot.sessionIDOf (OldBot.Channel ev) ts) →
  OldBot.sessions
    (OldBot.handleMessageEvent NewSession Active HandleUserInput Script Scripts
       DefaultMode ModeThread ModeChannel ModeSplit StringContains sendResult ev b).2 !! id
  = OldBot.sessions b !! id.
Proof.
  intros Hid.
  unfold OldBot.handleMessageEvent, OldBot.handleDirectMessageEvent,
    OldBot.handleChannelMessageEvent, OldBot.maybeForwardMessage, OldBot.parseMessage,
    OldBot.handleHelp, OldBot.startSession, OldBot.Send.
  repeat case_match; simplify_eq; simpl; rewrite ?lookup_insert_ne; done.
Qed.

Lemma old_message_touches_only_its_channel_witness :
  OldBot.sessions
    (OldBot.handleMessageEvent (λ id _ _ _ _, id) (λ _, true) (λ _ s, s)
       OldBot.oneScript ["bash"] "channel" "thread" "channel" "split" OldBot.contains
       (λ _, None) (OldBot.mkMessageEvent "U1" "D1" "bash" "17" "")
       (OldBot.mkBot "UBOT" {[ "C1:" := "C1:" ]} [])).2 !! "C1:"
  = OldBot.sessions (OldBot.mkBot "UBOT" {[ "C1:" := "C1:" ]} []) !! "C1:".
Proof.
  apply (old_message_touches_only_its_channel (λ id _ _ _ _, id) (λ _, true) (λ _ s, s)
           OldBot.oneScript ["bash"] "channel" "thread" "channel" "split" OldBot.contains
           (λ _, None) (OldBot.mkMessageEvent "U1" "D1" "bash" "17" "")
           (OldBot.mkBot "UBOT" {[ "C1:" := "C1:" ]} []) "C1:").
  intros ts. discriminate.
Defined.

(** ** The session of session.go after [!exit] *)

Lemma run_Finished (env : SessionGo.Env) (scripts : gmap string string)
    (events : list SessionGo.event) (s : SessionBase.Session SessionGo.place) :
  SessionBase.at_ s = SessionGo.Finished →
  SessionGo.run env scripts events s = s.
Proof.
  intros Hat. induction events as [|ev events IH]; [done|].
  unfold SessionGo.run in *. simpl. unfold SessionGo.step at 2. by rewrite Hat.
Qed.

(** X30.  [!exit] in the input loop of the session ends it for good: the bye
    message is posted, the flag is set, and whatever arrives later the
    session does nothing more. *)
Theorem session_exit_is_final (env : SessionGo.Env) (scripts : gmap string string)
    (later : list SessionGo.event) (s : SessionBase.Session SessionGo.place) :
  SessionBase.at_ s = SessionGo.AtUserInputLoop →
  SessionBase.closed s = false →
  SessionGo.run env scripts (SessionGo.Input exitCommand :: later) s
  = SessionBase.mkSession true
      (SessionBase.actions s
       ++ [SessionBase.PostText SessionBase.byeMessage; SessionBase.SetClosed])
      SessionGo.Finished.
Proof.
  intros Hat Hopen. unfold SessionGo.run. simpl.
  change (foldl _ ?s0 later) with (SessionGo.run env scripts later s0).
  rewrite run_Finished.
  - unfold SessionGo.step. rewrite Hat. unfold SessionGo.userInputLoopStep. simpl.
    unfold SessionBase.close. rewrite Hopen. simpl. by rewrite <- (assoc_L (++)).
  - unfold SessionGo.step. rewrite Hat. done.
Qed.

Lemma session_exit_is_final_witness :
  SessionGo.run SessionGo.reliable Prototype.availableREPLs
    (SessionGo.Input exitCommand :: [SessionGo.Input "bash"; SessionGo.Tick])
    (SessionGo.NewSession Prototype.availableREPLs)
  = SessionBase.mkSession true
      (SessionBase.actions (SessionGo.NewSession Prototype.availableREPLs)
       ++ [SessionBase.PostText SessionBase.byeMessage; SessionBase.SetClosed])
      SessionGo.Finished.
Proof.
  apply (session_exit_is_final SessionGo.reliable Prototype.availableREPLs
           [SessionGo.Input "bash"; SessionGo.Tick]
           (SessionGo.NewSession Prototype.availableREPLs)).
  - reflexivity.
  - reflexivity.
Defined.
